(** * flow-log-parser: a shallow embedding of [flow_log_parser.py]

    The program classifies flow-log records by destination port and
    protocol with a lookup table and counts them twice: per tag and per
    (port, protocol name).  This file embeds the six functions of the
    classification pipeline and proves the properties the specification
    states about them.

    Conventions of the embedding.
    - A Python [str] is a [string]; an [ascii] stands for the code point
      of the same number, so the model covers code points below 256.
    - A Python [int] is a [Z].
    - A Python [dict] is an insertion-ordered association list without
      repeated keys ([dict] below): iteration order is observable in the
      program (the output file lists the counters in [items()] order).
    - [print] and exceptions are the effects of the program; they live in
      the monad [Py]: the lines printed so far and either the exception
      raised or the value returned.
    - The host's protocol registry ([socket.getprotobyname] and the
      [IPPROTO_*] constants of the [socket] module) and the contents of
      the two input files are the environment; they are Section
      variables. *)

From Stdlib Require Import ZArith NArith Ascii String List Permutation Lia.
From stdpp Require Import base option list strings pretty.

Local Open Scope string_scope.
Local Open Scope list_scope.
Local Open Scope Z_scope.

(* ================================================================= *)
(** ** Python strings *)

Module PyStr.

(** [c.isspace()] for a code point below 256: the ASCII white space,
    the four separators FS, GS, RS, US, NEL and the no-break space. *)
Definition isspace (c : ascii) : bool :=
  let n := N_of_ascii c in
  ((9 <=? n) && (n <=? 13) || (28 <=? n) && (n <=? 32)
   || (n =? 133) || (n =? 160))%N.

(** [s.split()]: the maximal runs of characters that are not white
    space, in order; no empty field. *)
Fixpoint split (s : string) : list string :=
  match s with
  | EmptyString => []
  | String c s' =>
      if isspace c then split s'
      else match s' with
           | EmptyString => [String c EmptyString]
           | String c' _ =>
               if isspace c' then String c EmptyString :: split s'
               else match split s' with
                    | w :: ws => String c w :: ws
                    | [] => [String c EmptyString]
                    end
           end
  end.

Fixpoint lstrip (s : string) : string :=
  match s with
  | String c s' => if isspace c then lstrip s' else s
  | EmptyString => EmptyString
  end.

Fixpoint rstrip (s : string) : string :=
  match s with
  | EmptyString => EmptyString
  | String c s' =>
      match rstrip s' with
      | EmptyString => if isspace c then EmptyString else String c EmptyString
      | r => String c r
      end
  end.

(** [s.strip()] *)
Definition strip (s : string) : string := rstrip (lstrip s).

(** [c.lower()] below code point 256: A-Z and the Latin-1 capitals
    (0xC0-0xDE without the multiplication sign 0xD7) move up by 32. *)
Definition lower_char (c : ascii) : ascii :=
  let n := N_of_ascii c in
  if ((65 <=? n) && (n <=? 90)
      || (192 <=? n) && (n <=? 222) && negb (n =? 215))%N
  then ascii_of_N (n + 32) else c.

(** [s.lower()] *)
Fixpoint lower (s : string) : string :=
  match s with
  | EmptyString => EmptyString
  | String c s' => String (lower_char c) (lower s')
  end.

(** [s.startswith(p)] *)
Definition startswith (s p : string) : bool := String.prefix p s.

(** [s[n:]] for [0 <= n] *)
Fixpoint slice_from (n : nat) (s : string) : string :=
  match n, s with
  | O, _ => s
  | S n', String _ s' => slice_from n' s'
  | S _, EmptyString => EmptyString
  end.

(** [len(s)] *)
Definition len (s : string) : nat := String.length s.

(** [str(n)] for an [int]: decimal digits, a minus sign for negative
    numbers, no leading zero. *)
Definition str (n : Z) : string := pretty n.

Definition digit_val (c : ascii) : option Z :=
  let n := N_of_ascii c in
  if ((48 <=? n) && (n <=? 57))%N then Some (Z.of_N n - 48) else None.

(** The digits of an integer literal as [int()] reads them: decimal
    digits, single underscores allowed between two digits. [seen] says
    whether the previous character was a digit. *)
Fixpoint int_digits (acc : Z) (seen : bool) (s : string) : option Z :=
  match s with
  | EmptyString => if seen then Some acc else None
  | String c s' =>
      if Ascii.eqb c "_"%char
      then (if seen then int_digits acc false s' else None)
      else match digit_val c with
           | Some d => int_digits (10 * acc + d) true s'
           | None => None
           end
  end.

(** [int(s)] in base 10; [None] is [ValueError]. White space around
    the literal is ignored and one sign may precede the digits.
    (CPython's configurable cap on the number of digits is not part of
    the model.) *)
Definition int (s : string) : option Z :=
  match strip s with
  | String "+"%char r => int_digits 0 false r
  | String "-"%char r => Z.opp <$> int_digits 0 false r
  | r => int_digits 0 false r
  end.

End PyStr.

(* ================================================================= *)
(** ** Python dictionaries *)

(** A [dict] keeps its keys in insertion order; assigning to a key that
    is present replaces the value and leaves the key where it is. *)
Definition dict (K V : Type) : Type := list (K * V).

Section dict_ops.
Context {K V : Type} `{EqDecision K}.

(** [d.get(k)] *)
Fixpoint dict_get (d : dict K V) (k : K) : option V :=
  match d with
  | [] => None
  | (k', v) :: d' => if decide (k = k') then Some v else dict_get d' k
  end.

(** [k in d] *)
Definition dict_contains (d : dict K V) (k : K) : bool :=
  match dict_get d k with Some _ => true | None => false end.

(** [d[k] = v] *)
Fixpoint dict_set (d : dict K V) (k : K) (v : V) : dict K V :=
  match d with
  | [] => [(k, v)]
  | (k', v') :: d' =>
      if decide (k = k') then (k', v) :: d' else (k', v') :: dict_set d' k v
  end.

(** [list(d.keys())], [list(d.values())] *)
Definition dict_keys (d : dict K V) : list K := d.*1.
Definition dict_values (d : dict K V) : list V := d.*2.
End dict_ops.

(* ================================================================= *)
(** ** Exceptions and output *)

(** The exception classes the program can meet, with the part of the
    class hierarchy of Python 3 that [except] clauses see. [IOError] is
    an alias of [OSError] in Python 3. *)
Inductive exn_class : Set :=
  | Exception | ValueError | UnicodeDecodeError | OSError
  | FileNotFoundError | PermissionError | LookupError | KeyError
  | IndexError | TypeError | AttributeError | csv_Error.

Definition IOError : exn_class := OSError.

Global Instance exn_class_eq_dec : EqDecision exn_class.
Proof. solve_decision. Defined.

Definition base_class (c : exn_class) : option exn_class :=
  match c with
  | Exception => None
  | UnicodeDecodeError => Some ValueError
  | FileNotFoundError | PermissionError => Some OSError
  | KeyError | IndexError => Some LookupError
  | _ => Some Exception
  end.

(** [issubclass c d]; the hierarchy above is at most three levels deep. *)
Definition issubclass (c d : exn_class) : bool :=
  bool_decide (c = d)
  || match base_class c with
     | None => false
     | Some c1 =>
         bool_decide (c1 = d)
         || match base_class c1 with
            | None => false
            | Some c2 => bool_decide (c2 = d)
            end
     end.

(** An exception object: its class and [str(e)]. *)
Record exn : Set := Exn { exn_cls : exn_class; exn_msg : string }.

(** A computation: the lines it printed and how it ended. *)
Definition Py (A : Type) : Type := list string * (exn + A).

Global Instance Py_ret : MRet Py := λ A a, ([], inr a).
Global Instance Py_bind : MBind Py := λ A B f m,
  match m with
  | (out, inl e) => (out, inl e)
  | (out, inr a) => let '(out', r) := f a in (out ++ out', r)
  end.

Definition print (line : string) : Py unit := ([line], inr tt).
Definition raise {A : Type} (e : exn) : Py A := ([], inl e).

(** [try: m  except c as e: h e] *)
Definition try_except {A : Type} (m : Py A) (c : exn_class) (h : exn → Py A) : Py A :=
  match m with
  | (out, inl e) =>
      if issubclass (exn_cls e) c
      then let '(out', r) := h e in (out ++ out', r)
      else m
  | _ => m
  end.

(** [for x in xs: s = body s x], where [s] stands for the objects the
    body mutates. *)
Fixpoint for_each {A S : Type} (xs : list A) (body : S → A → Py S) (s : S) : Py S :=
  match xs with
  | [] => mret s
  | x :: xs' => s' ← body s x; for_each xs' body s'
  end.

(** [repr(x)], as the message of a [KeyError] shows the key. The text
    for a string is the one Python gives when the string has printable
    characters only and neither quote nor backslash. *)
Class Repr (A : Type) : Type := repr : A → string.
Global Instance repr_str : Repr string := λ s, "'" +:+ s +:+ "'".
Global Instance repr_option `{Repr A} : Repr (option A) := λ o,
  match o with Some x => repr x | None => "None" end.
Global Instance repr_tuple `{Repr A, Repr B} : Repr (A * B) := λ p,
  "(" +:+ repr p.1 +:+ ", " +:+ repr p.2 +:+ ")".

(** [d[k]]: [KeyError] when the key is missing. *)
Definition dict_item {K V : Type} `{EqDecision K, Repr K} (d : dict K V) (k : K) : Py V :=
  match dict_get d k with
  | Some v => mret v
  | None => raise (Exn KeyError (repr k))
  end.

(** [d[k] += 1] *)
Definition dict_incr {K : Type} `{EqDecision K, Repr K} (d : dict K Z) (k : K)
    : Py (dict K Z) :=
  n ← dict_item d k; mret (dict_set d k (n + 1)).

(** [l[i]] *)
Definition list_item {A : Type} (l : list A) (i : nat) : Py A :=
  match l !! i with
  | Some x => mret x
  | None => raise (Exn IndexError "list index out of range")
  end.

(** [int(s)] for a [str] *)
Definition int (s : string) : Py Z :=
  match PyStr.int s with
  | Some n => mret n
  | None => raise (Exn ValueError
                     ("invalid literal for int() with base 10: " +:+ repr s))
  end.

(** What iterating over an input yields: the open fails, or the items
    come one by one and the iteration ends normally or with an
    exception (a read or decoding error after the items shown). *)
Inductive source (A : Type) : Type :=
  | OpenFails (e : exn)
  | Reads (items : list A) (stop : option exn).
Arguments OpenFails {A} e.
Arguments Reads {A} items stop.

(** [with open(...) as f: for x in <reader over f>: s = body s x] *)
Definition for_source {A S : Type} (src : source A) (body : S → A → Py S) (s : S) : Py S :=
  match src with
  | OpenFails e => raise e
  | Reads items stop =>
      s' ← for_each items body s;
      match stop with
      | None => mret s'
      | Some e => raise e
      end
  end.

(** Rows as [csv.DictReader] hands them out: the first row of the reader
    gives the field names; a later row that is empty is passed over; a
    short row gets [None] for the fields it lacks. (The surplus of a long
    row goes under the key [None], which no lookup by name reads; it is
    left out.) A Python value that is a [str] or [None] is an
    [option string]. *)
Definition DictReader_row (fieldnames row : list string) : dict string (option string) :=
  let d := fold_left (λ d kv, dict_set d kv.1 (Some kv.2)) (zip fieldnames row) [] in
  fold_left (λ d key, dict_set d key None) (drop (length row) fieldnames) d.

Definition DictReader (src : source (list string)) : source (dict string (option string)) :=
  match src with
  | OpenFails e => OpenFails e
  | Reads [] stop => Reads [] stop
  | Reads (fieldnames :: rows) stop =>
      Reads (DictReader_row fieldnames <$> filter (λ row, row ≠ []) rows) stop
  end.

(* ================================================================= *)
(** ** The program *)

(** A lookup key as [load_lookup_table] builds it: [row['dstport']]
    (a [str], or [None] for a short row) and the protocol number as a
    string. A flow record is a pair of strings. *)
Definition lookup_key : Type := option string * string.
Definition flow_record : Type := string * string.

Section flow_log_parser.

(** The environment. *)

(** [vars(socket).items()]: the integer constants of the [socket]
    module by name, in the module's order. *)
Variable socket_vars : list (string * Z).
(** [socket.getprotobyname]: the number the host's protocol database
    gives for a name; [None] when it raises [OSError]. *)
Variable getprotobyname : string → option Z.
(** The rows [csv.reader] yields over the file of that name. *)
Variable open_csv : string → source (list string).
(** The lines of the text file of that name. *)
Variable open_text : string → source string.

(** [socket.getprotobyname(name)]; the argument must be a [str]. *)
Definition socket_getprotobyname (name : option string) : Py Z :=
  match name with
  | None => raise (Exn TypeError "getprotobyname() argument 1 must be str, not None")
  | Some name =>
      match getprotobyname name with
      | Some n => mret n
      | None => raise (Exn OSError "protocol not found")
      end
  end.

(** [get_protocol_number], lines 11-24. *)
Definition get_protocol_number (protocol_name : option string) : Py string :=
  try_except
    (protocol_num ← socket_getprotobyname protocol_name;
     mret (PyStr.str protocol_num))
    OSError
    (λ err, raise (Exn ValueError
                     ("Invalid protocol name: " +:+ default "None" protocol_name +:+ "."))).

(** The body of the row loop of [load_lookup_table], lines 38-42. *)
Definition load_lookup_table_row
    (lookup : dict lookup_key string) (row : dict string (option string))
    : Py (dict lookup_key string) :=
  try_except
    (dstport ← dict_item row "dstport";
     protocol ← dict_item row "protocol";
     number ← get_protocol_number protocol;
     tag ← dict_item row "tag";
     tag_lower ← match tag with
                 | Some t => mret (PyStr.lower t)
                 | None => raise (Exn AttributeError
                                    "'NoneType' object has no attribute 'lower'")
                 end;
     mret (dict_set lookup (dstport, number) tag_lower))
    ValueError
    (λ err, print ("Skipping invalid entry in lookup table: " +:+ exn_msg err);;
            mret lookup).

(** [load_lookup_table], lines 26-45. *)
Definition load_lookup_table (lookup_table_file_name : string)
    : Py (dict lookup_key string) :=
  try_except
    (for_source (DictReader (open_csv lookup_table_file_name))
                load_lookup_table_row [])
    Exception
    (λ e, raise (Exn IOError ("Failed to read the lookup table file: " +:+ exn_msg e))).

(** The body of the line loop of [load_dstport_protocol_flow_logs],
    lines 58-64. *)
Definition load_flow_logs_line
    (dstport_proto : list flow_record) (line : string) : Py (list flow_record) :=
  let fields := PyStr.split line in
  if bool_decide (8 ≤ length fields)%nat then
    dstport ← list_item fields 6;
    protocol ← list_item fields 7;
    mret (dstport_proto ++ [(dstport, protocol)])
  else
    print ("Skipping incomplete line: " +:+ PyStr.strip line);;
    mret dstport_proto.

(** [load_dstport_protocol_flow_logs], lines 47-67. *)
Definition load_dstport_protocol_flow_logs (flow_logs_file_name : string)
    : Py (list flow_record) :=
  try_except
    (for_source (open_text flow_logs_file_name) load_flow_logs_line [])
    Exception
    (λ e, raise (Exn IOError ("Failed to read the flow log file: " +:+ exn_msg e))).

(** The body of the loop of [map_port_proto_tag], lines 79-85. *)
Definition map_port_proto_tag_step
    (lookup : dict lookup_key string) (tag_count_dict : dict string Z)
    (key : flow_record) : Py (dict string Z) :=
  let key' : lookup_key := (Some key.1, key.2) in
  tag ← (if dict_contains lookup key'
         then dict_item lookup key'
         else mret "untagged");
  let tag_count_dict :=
    if negb (dict_contains tag_count_dict tag)
    then dict_set tag_count_dict tag 0
    else tag_count_dict in
  dict_incr tag_count_dict tag.

(** [map_port_proto_tag], lines 69-86. *)
Definition map_port_proto_tag
    (lookup : dict lookup_key string) (dstport_proto : list flow_record)
    : Py (dict string Z) :=
  for_each dstport_proto (map_port_proto_tag_step lookup) [].

(** The body of the loop of [get_protocol_name], lines 117-118. *)
Definition get_protocol_name_step (prefix : string)
    (table : dict Z string) (item : string * Z) : dict Z string :=
  let '(name, num) := item in
  if PyStr.startswith name prefix
  then dict_set table num (PyStr.slice_from (PyStr.len prefix) name)
  else table.

(** [get_protocol_name], lines 108-119. *)
Definition get_protocol_name (protocol_num : Z) : string :=
  let prefix := "IPPROTO_" in
  let table := fold_left (get_protocol_name_step prefix) socket_vars [] in
  default ("Unknown Protocol (" +:+ PyStr.str protocol_num +:+ ")")
          (dict_get table protocol_num).

(** The body of the loop of [get_port_protocol_counts], lines
    131-134. *)
Definition get_port_protocol_counts_step
    (port_proto_dict : dict (string * string) Z) (record : flow_record)
    : Py (dict (string * string) Z) :=
  let '(port, protocol) := record in
  protocol_num ← int protocol;
  let protocol_name := get_protocol_name protocol_num in
  let port_proto_dict :=
    if negb (dict_contains port_proto_dict (port, protocol_name))
    then dict_set port_proto_dict (port, protocol_name) 0
    else port_proto_dict in
  dict_incr port_proto_dict (port, protocol_name).

(** [get_port_protocol_counts], lines 121-135. *)
Definition get_port_protocol_counts (port_protocol : list flow_record)
    : Py (dict (string * string) Z) :=
  for_each port_protocol get_port_protocol_counts_step [].

End flow_log_parser.


(* ================================================================= *)
(** ** Writing the output and the main function *)

(** The output file as [open(..., mode='w')] finds it: the open fails,
    or the file takes rows; with a limit [(n, e)] it takes [n] rows and
    the write of a further row raises [e]. *)
Inductive sink : Type :=
  | SinkOpenFails (e : exn)
  | SinkAccepts (limit : option (nat * exn)).

(** A computation on the open output file: from the rows written so
    far to the rows written after it and how it ended. The rows are the
    lists of cells handed to [csv.writer]; a cell that is an [int] is
    written as its [str]. *)
Definition FileIO (A : Type) : Type :=
  list (list string) → list (list string) * (exn + A).

Global Instance FileIO_ret : MRet FileIO := λ A a written, (written, inr a).
Global Instance FileIO_bind : MBind FileIO := λ A B f m written,
  match m written with
  | (written', inl e) => (written', inl e)
  | (written', inr a) => f a written'
  end.

(** [writer.writerow(row)] *)
Definition writerow (limit : option (nat * exn)) (row : list string) : FileIO unit :=
  λ written,
    match limit with
    | Some (n, e) =>
        if decide (length written < n)%nat then (written ++ [row], inr tt)
        else (written, inl e)
    | None => (written ++ [row], inr tt)
    end.

(** [for x in xs: body x] on the open file *)
Fixpoint for_items {A : Type} (xs : list A) (body : A → FileIO unit) : FileIO unit :=
  match xs with
  | [] => mret tt
  | x :: xs' => body x;; for_items xs' body
  end.

(** [try: m] followed by [except] clauses: the first clause whose class
    the exception is an instance of handles it. *)
Fixpoint find_clause {A : Type} (e : exn) (clauses : list (exn_class * (exn → Py A)))
    : option (exn → Py A) :=
  match clauses with
  | [] => None
  | (c, h) :: clauses' => if issubclass (exn_cls e) c then Some h else find_clause e clauses'
  end.

Definition try_excepts {A : Type} (m : Py A) (clauses : list (exn_class * (exn → Py A)))
    : Py A :=
  match m with
  | (out, inl e) =>
      match find_clause e clauses with
      | Some h => let '(out', r) := h e in (out ++ out', r)
      | None => m
      end
  | _ => m
  end.

(** The arguments as [parse_args] returns them. *)
Record Namespace : Set :=
  { lookup_file : string; flow_log_file : string; output : string }.

Section output_and_main.

Variable socket_vars : list (string * Z).
Variable getprotobyname : string → option Z.
Variable open_csv : string → source (list string).
Variable open_text : string → source string.
(** The file of that name, opened for writing. *)
Variable open_out : string → sink.

(** The statements of [write_output_file] on the open file, lines
    96-103. *)
Definition write_output_rows (limit : option (nat * exn))
    (tag_dict : dict string Z) (port_proto_dict : dict (string * string) Z)
    : FileIO unit :=
  writerow limit ["Tag"; "Count"];;
  for_items tag_dict (λ '(key, value), writerow limit [key; PyStr.str value]);;
  writerow limit [];;
  writerow limit ["Port"; "Protocol"; "Count"];;
  for_items port_proto_dict
            (λ '(key, value), writerow limit [key.1; key.2; PyStr.str value]).

(** [write_output_file], lines 88-106. Beside the outcome, the rows in
    the output file after the call; [None] when the file was not
    opened. *)
Definition write_output_file (output_file_name : string)
    (tag_dict : dict string Z) (port_proto_dict : dict (string * string) Z)
    : option (list (list string)) * Py unit :=
  let handler (e : exn) : Py unit :=
    raise (Exn IOError ("Failed to write to output file: " +:+ exn_msg e)) in
  match open_out output_file_name with
  | SinkOpenFails e => (None, try_except (raise e) Exception handler)
  | SinkAccepts limit =>
      let '(written, r) := write_output_rows limit tag_dict port_proto_dict [] in
      (Some written,
       try_except
         (match r with
          | inl e => raise e
          | inr _ => print ("Output written to file " +:+ output_file_name)
          end)
         Exception handler)
  end.

(** [main], lines 147-166, after [parse_args]. Beside the outcome, the
    rows in the output file; [None] when it was not opened. *)
Definition main (args : Namespace) : option (list (list string)) * Py unit :=
  let clauses : list (exn_class * (exn → Py unit)) :=
    [(FileNotFoundError, λ fnf_error, print ("File error: " +:+ exn_msg fnf_error));
     (ValueError, λ ve, print ("Value error: " +:+ exn_msg ve));
     (IOError, λ io_error, print ("I/O error: " +:+ exn_msg io_error));
     (Exception, λ e, print ("Unexpected error: " +:+ exn_msg e))] in
  let counted : Py (dict string Z * dict (string * string) Z) :=
    lookup_dict ← load_lookup_table getprotobyname open_csv (lookup_file args);
    flow_logs ← load_dstport_protocol_flow_logs open_text (flow_log_file args);
    tag_mapping ← map_port_proto_tag lookup_dict flow_logs;
    port_proto_count ← get_port_protocol_counts socket_vars flow_logs;
    mret (tag_mapping, port_proto_count) in
  match counted with
  | (out, inl e) => (None, try_excepts (out, inl e) clauses)
  | (out, inr (tag_mapping, port_proto_count)) =>
      let '(file, (out', r)) :=
        write_output_file (output args) tag_mapping port_proto_count in
      (file, try_excepts (out ++ out', r) clauses)
  end.

End output_and_main.
(* ================================================================= *)
(** ** Specification-side notions *)

(** The sum of the counters of a counting dictionary. *)
Definition sum_values {K : Type} (d : dict K Z) : Z := foldr Z.add 0 (dict_values d).

(** What one round of "create the counter at 0 if missing, then add 1"
    amounts to. *)
Definition dict_bump {K : Type} `{EqDecision K} (d : dict K Z) (k : K) : dict K Z :=
  dict_set d k (default 0 (dict_get d k) + 1).

(** The tag a record is classified under. *)
Definition tag_of (lookup : dict lookup_key string) (key : flow_record) : string :=
  default "untagged" (dict_get lookup (Some key.1, key.2)).

(** The record a flow-log line stands for: none for a line of fewer than
    8 white-space fields, otherwise its 7th and 8th fields (counted from
    1) as port and protocol. *)
Definition parseLine (line : string) : option flow_record :=
  let fields := PyStr.split line in
  if decide (length fields < 8)%nat then None
  else dstport ← fields !! 6%nat; protocol ← fields !! 7%nat; Some (dstport, protocol).

(** The diagnostic printed for a line that is passed over. *)
Definition skipped_line (line : string) : string :=
  "Skipping incomplete line: " +:+ PyStr.strip line.

(** The protocol registry as the spec sees it. The [socket] module
    names the number [N] by [P] when it has the constant [IPPROTO_P]
    with value [N]. [P] is the canonical name of a well-known number [N]
    when it is the one name the module has for [N] and the host's
    protocol database resolves [P] to [N]. A number is unrecognized when
    the module has no name for it. *)
Definition names_number (socket_vars : list (string * Z)) (P : string) (N : Z) : Prop :=
  ("IPPROTO_" +:+ P, N) ∈ socket_vars.

Definition well_known (socket_vars : list (string * Z))
    (getprotobyname : string → option Z) (N : Z) (P : string) : Prop :=
  names_number socket_vars P N
  ∧ (∀ Q, names_number socket_vars Q N → Q = P)
  ∧ getprotobyname P = Some N.

Definition unrecognized (socket_vars : list (string * Z)) (N : Z) : Prop :=
  ∀ Q, ¬ names_number socket_vars Q N.

(** The placeholder name of an unrecognized number. *)
Definition placeholder (N : Z) : string :=
  "Unknown Protocol (" +:+ PyStr.str N +:+ ")".

(** A record whose protocol field [int()] accepts. *)
Definition numeric_protocol (record : flow_record) : Prop :=
  is_Some (PyStr.int record.2).

(** The counter a record with a numeric protocol field is counted
    under. *)
Definition port_protocol_key (socket_vars : list (string * Z)) (record : flow_record)
    : string * string :=
  (record.1, get_protocol_name socket_vars (default 0 (PyStr.int record.2))).

(** A flow-log line of 14 fields whose 8th field is a protocol name. *)
Definition line_with_protocol_name : string :=
  "2 123456789012 eni-0a1b2c3d 10.0.1.201 198.51.100.2 443 49153 tcp 25 20000 1620140761 1620140821 ACCEPT OK
".

(** The lookup source as the spec sees it: rows of three strings. *)

(** The string a row has in a column, if it has one. *)
Definition cell (row : dict string (option string)) (column : string) : option string :=
  match dict_get row column with
  | Some (Some s) => Some s
  | _ => None
  end.

(** A row that has a string in each of the three columns. *)
Definition complete_row (row : dict string (option string)) : Prop :=
  is_Some (cell row "dstport") ∧ is_Some (cell row "protocol") ∧ is_Some (cell row "tag").

(** The table entry of a row whose protocol name resolves. *)
Definition row_entry (getprotobyname : string → option Z)
    (row : dict string (option string)) : option (lookup_key * string) :=
  dstport ← cell row "dstport";
  protocol ← cell row "protocol";
  tag ← cell row "tag";
  number ← getprotobyname protocol;
  Some ((Some dstport, PyStr.str number), PyStr.lower tag).

(** The diagnostic of a row whose protocol name does not resolve. *)
Definition row_diagnostic (getprotobyname : string → option Z)
    (row : dict string (option string)) : option string :=
  protocol ← cell row "protocol";
  match getprotobyname protocol with
  | Some _ => None
  | None => Some ("Skipping invalid entry in lookup table: Invalid protocol name: "
                  +:+ protocol +:+ ".")
  end.

(** The table that holds the given entries, entered in order. *)
Definition table_of (entries : list (lookup_key * string)) : dict lookup_key string :=
  fold_left (λ table entry, dict_set table entry.1 entry.2) entries [].

(** The elements of a list in the order of their first occurrence. *)
Fixpoint first_seen {A : Type} `{EqDecision A} (l : list A) : list A :=
  match l with
  | [] => []
  | x :: l' => x :: filter (λ y, y ≠ x) (first_seen l')
  end.

(** The number of elements of a list that [f] sends to [k]. *)
Definition count_of {A K : Type} `{EqDecision K} (f : A → K) (k : K) (l : list A) : nat :=
  length (filter (λ x, f x = k) l).

(** The counter a counting dictionary shows for what occurs [n] times:
    none for what does not occur. *)
Definition counter (n : nat) : option Z :=
  if decide (n = 0%nat) then None else Some (Z.of_nat n).

(** A string without white space. *)
Fixpoint no_space (s : string) : bool :=
  match s with
  | EmptyString => true
  | String c s' => negb (PyStr.isspace c) && no_space s'
  end.

(** An entry as [load_lookup_table] makes them: the protocol part of the
    key is the decimal numeral of a number the protocol database gave,
    and the tag is in lower case. *)
Definition resolved_entry (getprotobyname : string → option Z)
    (entry : lookup_key * string) : Prop :=
  (∃ protocol number,
     getprotobyname protocol = Some number ∧ entry.1.2 = PyStr.str number)
  ∧ PyStr.lower entry.2 = entry.2.

(** A protocol field that is the decimal numeral [str(n)] of the number
    [n] it denotes: no sign [+], no leading zero, no underscore. *)
Definition canonical_numeral (protocol : string) : Prop :=
  PyStr.str <$> PyStr.int protocol = Some protocol.

(** The rows of the output file for two counting dictionaries: the
    block of the tags, an empty row, the block of the ports and
    protocol names; each block under its header, in the order of the
    dictionary. *)
Definition output_rows (tag_dict : dict string Z)
    (port_proto_dict : dict (string * string) Z) : list (list string) :=
  (["Tag"; "Count"] :: ((λ item, [item.1; PyStr.str item.2]) <$> tag_dict))
  ++ [[]; ["Port"; "Protocol"; "Count"]]
  ++ ((λ item, [item.1.1; item.1.2; PyStr.str item.2]) <$> port_proto_dict).

(** A file that takes [k] rows. *)
Definition sink_takes (limit : option (nat * exn)) (k : nat) : Prop :=
  match limit with
  | None => True
  | Some (n, _) => (k ≤ n)%nat
  end.

(* ================================================================= *)
(** ** A host and some files for the examples *)

(** Constants of the [socket] module as Linux has them, a few of them;
    two names share the number 0. *)
Definition sample_socket_vars : list (string * Z) :=
  [("AF_INET", 2); ("SOCK_STREAM", 1); ("IPPROTO_IP", 0); ("IPPROTO_HOPOPTS", 0);
   ("IPPROTO_ICMP", 1); ("IPPROTO_TCP", 6); ("IPPROTO_UDP", 17); ("SOL_SOCKET", 1)].

(** The protocol database: each protocol under its name and its
    upper-case alias. *)
Definition sample_getprotobyname (name : string) : option Z :=
  dict_get [("ip", 0); ("IP", 0); ("icmp", 1); ("ICMP", 1);
            ("tcp", 6); ("TCP", 6); ("udp", 17); ("UDP", 17)] name.

Definition no_such_file (name : string) : exn :=
  Exn FileNotFoundError ("[Errno 2] No such file or directory: " +:+ repr name).

(** The lookup tables: the one of the unit test; one with a row whose
    protocol name is not a protocol; one with two rows for the same
    key; one with a row that lacks its tag. *)
Definition sample_open_csv (name : string) : source (list string) :=
  if decide (name = "lookup_table.csv") then
    Reads [["dstport"; "protocol"; "tag"]; ["80"; "TCP"; "http"]; ["443"; "TCP"; "https"]] None
  else if decide (name = "invalid_protocol.csv") then
    Reads [["dstport"; "protocol"; "tag"]; ["80"; "tcp"; "HTTP"]; ["25"; "smtp"; "Mail"];
           []; ["443"; "tcp"; "https"]] None
  else if decide (name = "duplicate_key.csv") then
    Reads [["dstport"; "protocol"; "tag"]; ["80"; "tcp"; "HTTP"]; ["53"; "udp"; "dns"];
           ["80"; "TCP"; "Web"]] None
  else if decide (name = "short_row.csv") then
    Reads [["dstport"; "protocol"; "tag"]; ["80"; "tcp"]; ["443"; "tcp"; "https"]] None
  else OpenFails (no_such_file name).

Definition flow_line_1 : string :=
  "2 123456789012 eni-0a1b2c3d 10.0.1.201 198.51.100.2 443 49153 6 25 20000 1620140761 1620140821 ACCEPT OK
".
Definition flow_line_2 : string :=
  "        2 123456789012 eni-9k10l11m 192.168.1.5 51.15.99.115 49321 25 6 20 10000 1620140661 1620140721 ACCEPT OK
".
Definition blank_line : string := "
".

(** The flow logs: the one of the unit test (two records around a blank
    line); one whose only line has a protocol name in the 8th field; one
    that cannot be read to its end. *)
Definition sample_open_text (name : string) : source string :=
  if decide (name = "flow_logs.txt") then
    Reads [flow_line_1; blank_line; flow_line_2] None
  else if decide (name = "protocol_name.txt") then
    Reads [line_with_protocol_name] None
  else if decide (name = "damaged.txt") then
    Reads [flow_line_1]
          (Some (Exn UnicodeDecodeError "'utf-8' codec can't decode byte 0xff in position 0: invalid start byte"))
  else OpenFails (no_such_file name).

(** The output files: one that takes every row, one that takes four
    rows, one in a directory that does not exist. *)
Definition sample_open_out (name : string) : sink :=
  if decide (name = "output.csv") then SinkAccepts None
  else if decide (name = "full_disk.csv") then
    SinkAccepts (Some (4%nat, Exn OSError "[Errno 28] No space left on device"))
  else SinkOpenFails (no_such_file name).

(** A lookup file without its header line. *)
Definition headless_open_csv (name : string) : source (list string) :=
  Reads [["80"; "tcp"; "http"]; []; ["443"; "tcp"; "https"]] None.

Definition sample_args_protocol_name : Namespace :=
  {| lookup_file := "lookup_table.csv"; flow_log_file := "protocol_name.txt";
     output := "output.csv" |}.
Definition sample_args_missing_lookup : Namespace :=
  {| lookup_file := "missing.csv"; flow_log_file := "flow_logs.txt";
     output := "output.csv" |}.

(* ================================================================= *)
(** ** Facts about dictionaries and the monad *)

Lemma Py_ret_bind {A B : Type} (a : A) (f : A → Py B) : mret a ≫= f = f a.
Proof. unfold mbind, Py_bind, mret, Py_ret. by destruct (f a). Qed.

Lemma Py_raise_bind {A B : Type} (e : exn) (f : A → Py B) : raise e ≫= f = raise e.
Proof. done. Qed.

Section dict_facts.
Context {K V : Type} `{EqDecision K}.
Implicit Types (d : dict K V) (k : K) (v : V).

Lemma dict_get_set d k v k' :
  dict_get (dict_set d k v) k' = if decide (k' = k) then Some v else dict_get d k'.
Proof.
  induction d as [|[k0 v0] d IH]; simpl.
  - reflexivity.
  - destruct (decide (k = k0)) as [->|Hne]; simpl.
    + destruct (decide (k' = k0)); reflexivity.
    + rewrite IH. destruct (decide (k' = k0)) as [->|]; [|reflexivity].
      destruct (decide (k0 = k)); congruence.
Qed.

Lemma dict_get_set_eq d k v : dict_get (dict_set d k v) k = Some v.
Proof. rewrite dict_get_set. destruct (decide (k = k)); congruence. Qed.

Lemma dict_get_set_ne d k v k' : k' ≠ k → dict_get (dict_set d k v) k' = dict_get d k'.
Proof. intros. rewrite dict_get_set. destruct (decide (k' = k)); congruence. Qed.

Lemma dict_set_set d k v v' : dict_set (dict_set d k v) k v' = dict_set d k v'.
Proof.
  induction d as [|[k0 v0] d IH]; simpl.
  - destruct (decide (k = k)); congruence.
  - destruct (decide (k = k0)) as [->|Hne]; simpl.
    + destruct (decide (k0 = k0)); congruence.
    + destruct (decide (k = k0)); [congruence|]. by rewrite IH.
Qed.

Lemma dict_get_Some_elem d k v : dict_get d k = Some v → (k, v) ∈ d.
Proof.
  induction d as [|[k0 v0] d IH]; simpl; [done|].
  destruct (decide (k = k0)) as [->|]; intros Hg.
  - injection Hg as ->. left.
  - right. auto.
Qed.

Lemma dict_get_None_keys d k : dict_get d k = None ↔ k ∉ dict_keys d.
Proof.
  unfold dict_keys. induction d as [|[k0 v0] d IH]; simpl.
  - split; [intros _; apply not_elem_of_nil | done].
  - rewrite not_elem_of_cons. destruct (decide (k = k0)) as [->|Hne].
    + split; [done | intros [? _]; done].
    + rewrite IH. tauto.
Qed.

(** Assignment keeps the keys pairwise distinct, and keeps them where
    they are: a new key goes to the end. *)
Lemma dict_keys_set d k v :
  dict_keys (dict_set d k v)
  = if dict_contains d k then dict_keys d else dict_keys d ++ [k].
Proof.
  unfold dict_contains, dict_keys. induction d as [|[k0 v0] d IH]; [done|].
  cbn [dict_set dict_get]. destruct (decide (k = k0)) as [->|Hne]; [done|].
  rewrite !fmap_cons, IH. by destruct (dict_get d k).
Qed.

Lemma dict_keys_set_NoDup d k v : NoDup (dict_keys d) → NoDup (dict_keys (dict_set d k v)).
Proof.
  intros Hd. rewrite dict_keys_set. unfold dict_contains.
  destruct (dict_get d k) eqn:Hg; [done|].
  apply NoDup_app. split_and!; [done | | apply NoDup_singleton].
  intros x Hx ->%list_elem_of_singleton. by apply dict_get_None_keys in Hg.
Qed.
End dict_facts.

Section counting_facts.
Context {K : Type} `{EqDecision K}.
Implicit Types (d : dict K Z) (k : K).

Lemma sum_values_set d k n :
  sum_values (dict_set d k n) = sum_values d - default 0 (dict_get d k) + n.
Proof.
  unfold sum_values, dict_values. induction d as [|[k0 n0] d IH]; [simpl; lia|].
  cbn [dict_set dict_get].
  destruct (decide (k = k0)) as [->|Hne]; rewrite !fmap_cons; cbn [foldr snd default].
  - simpl. lia.
  - rewrite IH. lia.
Qed.

Lemma sum_values_bump d k : sum_values (dict_bump d k) = sum_values d + 1.
Proof. unfold dict_bump. rewrite sum_values_set. lia. Qed.

Lemma dict_get_bump d k k' :
  dict_get (dict_bump d k) k'
  = if decide (k' = k) then Some (default 0 (dict_get d k) + 1) else dict_get d k'.
Proof. apply dict_get_set. Qed.

(** The two statements of a counting loop are one [dict_bump]; the
    [KeyError] of [d[k] += 1] cannot happen after the guard. *)
Lemma dict_incr_guarded `{Repr K} d k :
  dict_incr (if negb (dict_contains d k) then dict_set d k 0 else d) k
  = mret (dict_bump d k).
Proof.
  unfold dict_incr, dict_item, dict_contains, dict_bump.
  destruct (dict_get d k) as [n|] eqn:Hg; cbn [negb].
  - by rewrite Hg, Py_ret_bind.
  - by rewrite dict_get_set_eq, Py_ret_bind, dict_set_set.
Qed.
End counting_facts.

Lemma for_each_pure {A S : Type} (f : S → A → S) (xs : list A) (s : S) :
  for_each xs (λ s x, mret (f s x)) s = mret (fold_left f xs s).
Proof.
  revert s. induction xs as [|x xs IH]; intros s; simpl; [done|].
  unfold mbind, Py_bind, mret, Py_ret at 1. simpl. rewrite IH. done.
Qed.

Lemma for_each_ext {A S : Type} (f g : S → A → Py S) (xs : list A) (s : S) :
  (∀ s x, f s x = g s x) → for_each xs f s = for_each xs g s.
Proof.
  intros Hfg. revert s. induction xs as [|x xs IH]; intros s; simpl; [done|].
  rewrite Hfg. destruct (g s x) as [out [e|s']]; simpl; [done|]. by rewrite IH.
Qed.

(* ================================================================= *)
(** ** Counting by tag *)

Section count_by_tag.
Variable lookup : dict lookup_key string.

Lemma map_port_proto_tag_step_eq tag_count_dict key :
  map_port_proto_tag_step lookup tag_count_dict key
  = mret (dict_bump tag_count_dict (tag_of lookup key)).
Proof.
  unfold map_port_proto_tag_step, tag_of.
  unfold dict_item.
  change (dict_contains lookup (Some key.1, key.2))
    with (match dict_get lookup (Some key.1, key.2) with
          | Some _ => true | None => false end).
  destruct (dict_get lookup (Some key.1, key.2)) as [tag|]; cbv beta iota;
    rewrite Py_ret_bind; apply dict_incr_guarded.
Qed.

Lemma map_port_proto_tag_eq dstport_proto :
  map_port_proto_tag lookup dstport_proto
  = mret (fold_left (λ d key, dict_bump d (tag_of lookup key)) dstport_proto []).
Proof.
  unfold map_port_proto_tag. rewrite <- for_each_pure.
  apply for_each_ext, map_port_proto_tag_step_eq.
Qed.

Lemma sum_values_fold_bump {A : Type} (f : A → string) xs (d : dict string Z) :
  sum_values (fold_left (λ d x, dict_bump d (f x)) xs d)
  = sum_values d + Z.of_nat (length xs).
Proof.
  revert d. induction xs as [|x xs IH]; intros d; simpl; [lia|].
  rewrite IH, sum_values_bump. lia.
Qed.

(** The counter of a tag after the fold: what it was, plus the number
    of records classified under the tag; a tag no record has is left
    as it was (absent if it was absent). *)
Lemma dict_get_fold_bump {A : Type} (f : A → string) xs (d : dict string Z) t :
  dict_get (fold_left (λ d x, dict_bump d (f x)) xs d) t
  = let n := length (filter (λ x, f x = t) xs) in
    if decide (n = 0%nat) then dict_get d t
    else Some (default 0 (dict_get d t) + Z.of_nat n).
Proof.
  revert d. induction xs as [|x xs IH]; intros d; [done|].
  cbn [fold_left]. rewrite IH, filter_cons, dict_get_bump. cbn zeta.
  destruct (decide (f x = t)) as [<-|Hne].
  - destruct (decide (f x = f x)); [|done]. cbn [length default from_option id].
    destruct (decide (S _ = 0%nat)); [done|].
    destruct (decide (_ = 0%nat)) as [->|]; f_equal; simpl; lia.
  - destruct (decide (t = f x)); [congruence|]. done.
Qed.
End count_by_tag.

(** C1. For every lookup table and every list of flow records,
    [map_port_proto_tag] returns a mapping (it raises nothing and prints
    nothing) and the counters of the mapping add up to the number of
    records, whatever the share of records the table matches. *)
Theorem map_port_proto_tag_total_count
    (lookup : dict lookup_key string) (dstport_proto : list flow_record) :
  ∃ tag_count_dict,
    map_port_proto_tag lookup dstport_proto = ([], inr tag_count_dict)
    ∧ sum_values tag_count_dict = Z.of_nat (length dstport_proto).
Proof.
  eexists. split; [apply map_port_proto_tag_eq|].
  by rewrite sum_values_fold_bump.
Qed.

(** C8. For every lookup table and every two record lists that are
    permutations of each other, [map_port_proto_tag] gives every tag
    the same count (or no counter at all in both). *)
Theorem map_port_proto_tag_permutation
    (lookup : dict lookup_key string) (records1 records2 : list flow_record) :
  records1 ≡ₚ records2 →
  ∃ counts1 counts2,
    map_port_proto_tag lookup records1 = ([], inr counts1)
    ∧ map_port_proto_tag lookup records2 = ([], inr counts2)
    ∧ ∀ tag, dict_get counts1 tag = dict_get counts2 tag.
Proof.
  intros Hperm. do 2 eexists. split_and!; [apply map_port_proto_tag_eq..|].
  intros tag. rewrite !dict_get_fold_bump.
  by rewrite (Permutation_length (filter_Permutation _ _ _ Hperm)).
Qed.

(* ================================================================= *)
(** ** Reading the flow log *)

Lemma parseLine_short line :
  (length (PyStr.split line) < 8)%nat → parseLine line = None.
Proof. intros Hlen. unfold parseLine. cbn zeta. by destruct (decide _). Qed.

Lemma parseLine_long line :
  (8 ≤ length (PyStr.split line))%nat →
  ∃ dstport protocol,
    PyStr.split line !! 6%nat = Some dstport
    ∧ PyStr.split line !! 7%nat = Some protocol
    ∧ parseLine line = Some (dstport, protocol).
Proof.
  intros Hlen. unfold parseLine. cbn zeta.
  destruct (decide _) as [Hlt|_]; [lia|].
  destruct (lookup_lt_is_Some_2 (PyStr.split line) 6) as [p Hp]; [lia|].
  destruct (lookup_lt_is_Some_2 (PyStr.split line) 7) as [q Hq]; [lia|].
  exists p, q. by rewrite Hp, Hq.
Qed.

Lemma load_flow_logs_line_eq dstport_proto line :
  load_flow_logs_line dstport_proto line
  = match parseLine line with
    | Some record => ([], inr (dstport_proto ++ [record]))
    | None => ([skipped_line line], inr dstport_proto)
    end.
Proof.
  unfold load_flow_logs_line. cbn zeta.
  destruct (decide (8 ≤ length (PyStr.split line))%nat) as [Hlen|Hlen].
  - rewrite bool_decide_true by done.
    destruct (parseLine_long line Hlen) as (p & q & Hp & Hq & ->).
    unfold list_item. by rewrite Hp, Hq.
  - rewrite bool_decide_false by done.
    rewrite parseLine_short by lia. done.
Qed.

Lemma for_each_load_flow_logs_line lines dstport_proto :
  for_each lines load_flow_logs_line dstport_proto
  = (skipped_line <$> filter (λ line, parseLine line = None) lines,
     inr (dstport_proto ++ omap parseLine lines)).
Proof.
  revert dstport_proto. induction lines as [|line lines IH]; intros acc.
  - simpl. by rewrite app_nil_r.
  - cbn [for_each]. rewrite load_flow_logs_line_eq, filter_cons. cbn [omap list_omap].
    destruct (parseLine line) as [record|] eqn:Hline.
    + destruct (decide (Some record = None)); [done|].
      unfold mbind, Py_bind. rewrite IH. by rewrite <- app_assoc.
    + destruct (decide (None = None)); [|done].
      unfold mbind, Py_bind. rewrite IH. done.
Qed.

(** C2. When the flow log is read to its end, the function returns, in
    the order of the lines, the records of the lines that have one, and
    prints one diagnostic for each line that has none. A line of fewer
    than 8 white-space fields has no record; a line of 8 fields or more
    has the record (7th field, 8th field). *)
Theorem load_flow_logs_fields
    (open_text : string → source string) (flow_logs_file_name : string)
    (lines : list string) :
  open_text flow_logs_file_name = Reads lines None →
  load_dstport_protocol_flow_logs open_text flow_logs_file_name
  = (skipped_line <$> filter (λ line, parseLine line = None) lines,
     inr (omap parseLine lines))
  ∧ ∀ line,
      ((length (PyStr.split line) < 8)%nat → parseLine line = None)
      ∧ ((8 ≤ length (PyStr.split line))%nat →
         ∃ dstport protocol,
           PyStr.split line !! 6%nat = Some dstport
           ∧ PyStr.split line !! 7%nat = Some protocol
           ∧ parseLine line = Some (dstport, protocol)).
Proof.
  intros Hopen. split.
  - unfold load_dstport_protocol_flow_logs, for_source. rewrite Hopen.
    rewrite for_each_load_flow_logs_line. unfold mbind, Py_bind. simpl.
    by rewrite app_nil_r.
  - intros line. split; [apply parseLine_short | apply parseLine_long].
Qed.

(* ================================================================= *)
(** ** Loading the lookup table *)

Section lookup_table.
Variable getprotobyname : string → option Z.

Lemma dict_item_cell (row : dict string (option string)) column s :
  cell row column = Some s → dict_item row column = mret (Some s).
Proof.
  unfold cell, dict_item. destruct (dict_get row column) as [[s'|]|]; [|done..].
  by intros [= ->].
Qed.

(** A complete row either enters the table or is passed over with a
    diagnostic; it raises nothing. *)
Lemma load_lookup_table_row_complete lookup row :
  complete_row row →
  load_lookup_table_row getprotobyname lookup row
  = match row_entry getprotobyname row with
    | Some entry => ([], inr (dict_set lookup entry.1 entry.2))
    | None => (option_list (row_diagnostic getprotobyname row), inr lookup)
    end.
Proof.
  intros ([d Hd] & [p Hp] & [t Ht]).
  unfold load_lookup_table_row, row_entry, row_diagnostic.
  rewrite (dict_item_cell _ _ _ Hd), Py_ret_bind.
  rewrite (dict_item_cell _ _ _ Hp), Py_ret_bind.
  rewrite (dict_item_cell _ _ _ Ht), Hd, Hp, Ht. simpl.
  unfold get_protocol_number, socket_getprotobyname.
  destruct (getprotobyname p) as [n|]; reflexivity.
Qed.

Lemma for_each_load_lookup_table_row rows lookup :
  Forall complete_row rows →
  for_each rows (load_lookup_table_row getprotobyname) lookup
  = (omap (row_diagnostic getprotobyname) rows,
     inr (fold_left (λ table entry, dict_set table entry.1 entry.2)
                    (omap (row_entry getprotobyname) rows) lookup)).
Proof.
  intros Hall. revert lookup.
  induction Hall as [|row rows Hrow _ IH]; intros lookup; [done|].
  cbn [for_each omap list_omap].
  rewrite load_lookup_table_row_complete by done.
  destruct Hrow as ([d Hd] & [p Hp] & [t Ht]).
  unfold row_diagnostic at 1 2. unfold row_entry at 1 2.
  rewrite Hd, Hp, Ht. simpl.
  destruct (getprotobyname p) as [n|]; simpl;
    unfold mbind, Py_bind; by rewrite IH.
Qed.

Lemma load_lookup_table_complete open_csv name rows :
  DictReader (open_csv name) = Reads rows None →
  Forall complete_row rows →
  load_lookup_table getprotobyname open_csv name
  = (omap (row_diagnostic getprotobyname) rows,
     inr (table_of (omap (row_entry getprotobyname) rows))).
Proof.
  intros Hopen Hall. unfold load_lookup_table, for_source. rewrite Hopen.
  rewrite for_each_load_lookup_table_row by done.
  unfold mbind, Py_bind. simpl. by rewrite app_nil_r.
Qed.
End lookup_table.

Lemma dict_get_fold_set (entries : list (lookup_key * string)) table key :
  is_Some (dict_get (fold_left (λ table entry, dict_set table entry.1 entry.2)
                               entries table) key)
  ↔ key ∈ entries.*1 ∨ is_Some (dict_get table key).
Proof.
  revert table. induction entries as [|[k v] entries IH]; intros table.
  - simpl. rewrite elem_of_nil. tauto.
  - cbn [fold_left]. rewrite IH, fmap_cons, elem_of_cons, dict_get_set. simpl.
    destruct (decide (key = k)) as [->|]; [|tauto].
    split; [auto | intros _; right; by eexists].
Qed.

(** The last entry of a key decides its value. *)
Lemma dict_get_fold_set_last (before after : list (lookup_key * string)) table key value :
  key ∉ after.*1 →
  dict_get (fold_left (λ table entry, dict_set table entry.1 entry.2)
                      (before ++ (key, value) :: after) table) key
  = Some value.
Proof.
  intros Hafter. rewrite fold_left_app. cbn [fold_left]. simpl.
  generalize (fold_left (λ table entry, dict_set table entry.1 entry.2) before table).
  intros table'.
  assert (dict_get (dict_set table' key value) key = Some value) as Hstart
    by apply dict_get_set_eq.
  revert Hafter Hstart. generalize (dict_set table' key value).
  induction after as [|[k v] after IH]; intros t Hafter Hstart; [done|].
  rewrite fmap_cons, not_elem_of_cons in Hafter. destruct Hafter as [Hk Hafter].
  cbn [fold_left]. apply IH; [done|]. simpl in *. by rewrite dict_get_set_ne.
Qed.

(** C5. When every row of the lookup source has its three fields, the
    load does not raise: a row whose protocol name does not resolve is
    passed over with a diagnostic, and the table returned holds exactly
    the entries of the rows whose protocol name resolves. *)
Theorem load_lookup_table_skips_invalid
    (getprotobyname : string → option Z) (open_csv : string → source (list string))
    (lookup_table_file_name : string) (rows : list (dict string (option string))) :
  DictReader (open_csv lookup_table_file_name) = Reads rows None →
  Forall complete_row rows →
  ∃ lookup,
    load_lookup_table getprotobyname open_csv lookup_table_file_name
    = (omap (row_diagnostic getprotobyname) rows, inr lookup)
    ∧ lookup = table_of (omap (row_entry getprotobyname) rows)
    ∧ ∀ key, is_Some (dict_get lookup key)
             ↔ ∃ row tag, row ∈ rows ∧ row_entry getprotobyname row = Some (key, tag).
Proof.
  intros Hopen Hall. eexists. split_and!; [by apply load_lookup_table_complete | done |].
  intros key. unfold table_of. rewrite dict_get_fold_set. simpl. split.
  - intros [Hin|[? [=]]].
    apply list_elem_of_fmap in Hin as ([k tag] & -> & Hin).
    apply list_elem_of_omap in Hin as (row & Hrow & Hentry). eauto.
  - intros (row & tag & Hrow & Hentry). left.
    apply list_elem_of_fmap. exists (key, tag). split; [done|].
    apply list_elem_of_omap. eauto.
Qed.

(** C6. A row with port [dstport], a protocol name that resolves to
    [number] and tag [tag] puts [tag.lower()] under the key
    [(dstport, str(number))]; the table returned maps the key to the
    tag of the last row that produces the key. *)
Theorem load_lookup_table_last_write_wins
    (getprotobyname : string → option Z) (open_csv : string → source (list string))
    (lookup_table_file_name : string)
    (before after : list (dict string (option string)))
    (row : dict string (option string)) (dstport protocol tag : string) (number : Z) :
  DictReader (open_csv lookup_table_file_name) = Reads (before ++ row :: after) None →
  Forall complete_row (before ++ row :: after) →
  cell row "dstport" = Some dstport →
  cell row "protocol" = Some protocol →
  cell row "tag" = Some tag →
  getprotobyname protocol = Some number →
  (Some dstport, PyStr.str number) ∉ (omap (row_entry getprotobyname) after).*1 →
  ∃ out lookup,
    load_lookup_table getprotobyname open_csv lookup_table_file_name = (out, inr lookup)
    ∧ dict_get lookup (Some dstport, PyStr.str number) = Some (PyStr.lower tag).
Proof.
  intros Hopen Hall Hd Hp Ht Hn Hlast. do 2 eexists.
  split; [by apply load_lookup_table_complete|].
  unfold table_of. rewrite omap_app. cbn [omap list_omap].
  assert (row_entry getprotobyname row
          = Some ((Some dstport, PyStr.str number), PyStr.lower tag)) as ->.
  { unfold row_entry. by rewrite Hd, Hp, Ht; simpl; rewrite Hn. }
  by apply dict_get_fold_set_last.
Qed.

(* ================================================================= *)
(** ** Protocol names and numbers *)

Lemma string_app_cons a p q : String a p +:+ q = String a (p +:+ q).
Proof. reflexivity. Qed.

Lemma string_app_nil q : EmptyString +:+ q = q.
Proof. reflexivity. Qed.

Lemma startswith_slice p s :
  PyStr.startswith s p = true → s = p +:+ PyStr.slice_from (PyStr.len p) s.
Proof.
  unfold PyStr.startswith, PyStr.len. revert s.
  induction p as [|a p IH]; intros s; [done|].
  destruct s as [|b s]; simpl; [done|].
  destruct (ascii_dec a b) as [->|]; [|done].
  intros Hp. rewrite string_app_cons. f_equal. by apply IH.
Qed.

Lemma startswith_app p q : PyStr.startswith (p +:+ q) p = true.
Proof.
  unfold PyStr.startswith. induction p as [|a p IH].
  - rewrite string_app_nil. by destruct q.
  - rewrite string_app_cons. simpl. by destruct (ascii_dec a a).
Qed.

Lemma slice_from_app p q : PyStr.slice_from (PyStr.len p) (p +:+ q) = q.
Proof.
  unfold PyStr.len. induction p as [|a p IH]; [by destruct q|].
  by rewrite string_app_cons.
Qed.




Section protocol_table.
Variable socket_vars : list (string * Z).

Lemma get_protocol_name_step_get table name num N :
  dict_get (get_protocol_name_step "IPPROTO_" table (name, num)) N
  = if decide (PyStr.startswith name "IPPROTO_" = true ∧ N = num)
    then Some (PyStr.slice_from (PyStr.len "IPPROTO_") name)
    else dict_get table N.
Proof.
  unfold get_protocol_name_step. destruct (PyStr.startswith name "IPPROTO_") eqn:Hs.
  - rewrite dict_get_set. destruct (decide (N = num)) as [->|];
      destruct (decide _) as [[]|Hn]; try done. destruct Hn. done.
  - destruct (decide _) as [[]|]; done.
Qed.

Lemma table_get_named vars table N P :
  (∀ Q, ("IPPROTO_" +:+ Q, N) ∈ vars → Q = P) →
  ("IPPROTO_" +:+ P, N) ∈ vars ∨ dict_get table N = Some P →
  dict_get (fold_left (get_protocol_name_step "IPPROTO_") vars table) N = Some P.
Proof.
  revert table. induction vars as [|[name num] vars IH]; intros table Hone Hin.
  - destruct Hin as [Hin|Hget]; [by apply elem_of_nil in Hin | done].
  - cbn [fold_left]. apply IH.
    + intros Q HQ. apply Hone. by right.
    + destruct (decide (PyStr.startswith name "IPPROTO_" = true ∧ N = num))
        as [[Hs ->]|Hno].
      * right. rewrite get_protocol_name_step_get, decide_True by done. f_equal.
        apply Hone. rewrite <- (startswith_slice _ _ Hs). left.
      * rewrite get_protocol_name_step_get, decide_False by done.
        destruct Hin as [Hin|Hget]; [|by right].
        apply elem_of_cons in Hin as [[= <- <-]|Hin]; [|by left].
        destruct Hno. split; [apply startswith_app | done].
Qed.

Lemma table_get_unnamed vars table N :
  (∀ Q, ("IPPROTO_" +:+ Q, N) ∉ vars) →
  dict_get table N = None →
  dict_get (fold_left (get_protocol_name_step "IPPROTO_") vars table) N = None.
Proof.
  revert table. induction vars as [|[name num] vars IH]; intros table Hno Hget; [done|].
  cbn [fold_left]. apply IH.
  - intros Q HQ. apply (Hno Q). by right.
  - rewrite get_protocol_name_step_get.
    destruct (decide _) as [[Hs ->]|]; [|done].
    destruct (Hno (PyStr.slice_from (PyStr.len "IPPROTO_") name)).
    rewrite <- (startswith_slice _ _ Hs). left.
Qed.

Lemma get_protocol_name_table N :
  get_protocol_name socket_vars N
  = default (placeholder N) (dict_get (fold_left (get_protocol_name_step "IPPROTO_") socket_vars []) N).
Proof. reflexivity. Qed.

Lemma get_protocol_name_named N P :
  names_number socket_vars P N →
  (∀ Q, names_number socket_vars Q N → Q = P) →
  get_protocol_name socket_vars N = P.
Proof.
  intros Hin Hone. rewrite get_protocol_name_table.
  rewrite (table_get_named _ _ N P); [done | done | by left].
Qed.

Lemma get_protocol_name_unrecognized N :
  unrecognized socket_vars N → get_protocol_name socket_vars N = placeholder N.
Proof.
  intros Hno. rewrite get_protocol_name_table.
  rewrite table_get_unnamed; done.
Qed.
End protocol_table.

Lemma get_protocol_number_resolved getprotobyname name N :
  getprotobyname name = Some N →
  get_protocol_number getprotobyname (Some name) = ([], inr (PyStr.str N)).
Proof.
  intros Hn. unfold get_protocol_number, socket_getprotobyname. by rewrite Hn.
Qed.

(** C3. For a well-known number [N] with canonical name [P],
    [get_protocol_name N] is [P] and [get_protocol_number P] returns
    [str(N)]; for an unrecognized number [N], [get_protocol_name N] is
    the string "Unknown Protocol (N)". *)
Theorem protocol_name_number_round_trip
    (socket_vars : list (string * Z)) (getprotobyname : string → option Z) :
  (∀ N P, well_known socket_vars getprotobyname N P →
     get_protocol_name socket_vars N = P
     ∧ get_protocol_number getprotobyname (Some P) = ([], inr (PyStr.str N)))
  ∧ (∀ N, unrecognized socket_vars N →
       get_protocol_name socket_vars N
       = "Unknown Protocol (" +:+ PyStr.str N +:+ ")").
Proof.
  split.
  - intros N P (Hin & Hone & Hdb). split.
    + by apply get_protocol_name_named.
    + by apply get_protocol_number_resolved.
  - intros N HN. by apply get_protocol_name_unrecognized.
Qed.

(** C4. For a protocol name the host's protocol database does not have,
    [get_protocol_number] raises [ValueError] and returns no value; it
    prints nothing. *)
Theorem get_protocol_number_invalid
    (getprotobyname : string → option Z) (protocol_name : string) :
  getprotobyname protocol_name = None →
  get_protocol_number getprotobyname (Some protocol_name)
  = ([], inl (Exn ValueError ("Invalid protocol name: " +:+ protocol_name +:+ "."))).
Proof.
  intros Hn. unfold get_protocol_number, socket_getprotobyname. by rewrite Hn.
Qed.

(* ================================================================= *)
(** ** Counting by port and protocol name *)

Section count_by_port_protocol.
Variable socket_vars : list (string * Z).

Lemma get_port_protocol_counts_step_numeric port_proto_dict record :
  numeric_protocol record →
  get_port_protocol_counts_step socket_vars port_proto_dict record
  = mret (dict_bump port_proto_dict (port_protocol_key socket_vars record)).
Proof.
  destruct record as [port protocol]. intros [n Hn]. simpl in Hn.
  unfold get_port_protocol_counts_step, port_protocol_key, int. simpl.
  rewrite Hn, Py_ret_bind. apply dict_incr_guarded.
Qed.

Lemma get_port_protocol_counts_step_invalid port_proto_dict port protocol :
  PyStr.int protocol = None →
  get_port_protocol_counts_step socket_vars port_proto_dict (port, protocol)
  = raise (Exn ValueError ("invalid literal for int() with base 10: " +:+ repr protocol)).
Proof.
  intros Hn. unfold get_port_protocol_counts_step, int. by rewrite Hn.
Qed.

(** With numeric protocol fields the loop is a fold of [dict_bump]. *)
Lemma for_each_counts_numeric port_protocol port_proto_dict :
  Forall numeric_protocol port_protocol →
  for_each port_protocol (get_port_protocol_counts_step socket_vars) port_proto_dict
  = mret (fold_left (λ d record, dict_bump d (port_protocol_key socket_vars record))
                    port_protocol port_proto_dict).
Proof.
  intros Hall. revert port_proto_dict.
  induction Hall as [|record records Hr _ IH]; intros d; [done|].
  cbn [for_each fold_left].
  by rewrite get_port_protocol_counts_step_numeric, Py_ret_bind, IH.
Qed.

(** A record whose protocol field is not numeric stops the loop. *)
Lemma for_each_counts_invalid port_protocol port_proto_dict :
  Exists (λ record, PyStr.int record.2 = None) port_protocol →
  ∃ msg,
    for_each port_protocol (get_port_protocol_counts_step socket_vars) port_proto_dict
    = ([], inl (Exn ValueError msg)).
Proof.
  revert port_proto_dict.
  induction port_protocol as [|[port protocol] records IH]; intros d Hex.
  - by apply Exists_nil in Hex.
  - cbn [for_each]. destruct (PyStr.int protocol) as [n|] eqn:Hn.
    + rewrite get_port_protocol_counts_step_numeric, Py_ret_bind by (by exists n).
      apply IH. apply Exists_cons in Hex as [Hex|Hex]; [|done].
      simpl in Hex. congruence.
    + rewrite get_port_protocol_counts_step_invalid by done. eauto.
Qed.
End count_by_port_protocol.



(* ================================================================= *)
(** ** What stops a load *)

(** The flow-log load raises exactly when the file cannot be opened or
    cannot be read to its end; no line makes it raise. *)
Lemma load_flow_logs_raises_iff (open_text : string → source string) name :
  (∃ e, (load_dstport_protocol_flow_logs open_text name).2 = inl e)
  ↔ (∃ e, open_text name = OpenFails e) ∨ (∃ lines e, open_text name = Reads lines (Some e)).
Proof.
  unfold load_dstport_protocol_flow_logs, for_source.
  destruct (open_text name) as [e|lines [e|]].
  - split; [eauto|]. intros _. simpl. destruct e as [[] msg]; simpl; eauto.
  - rewrite for_each_load_flow_logs_line. split; [eauto|]. intros _.
    unfold mbind, Py_bind. simpl. destruct e as [[] msg]; simpl; eauto.
  - rewrite for_each_load_flow_logs_line. unfold mbind, Py_bind. simpl. split.
    + intros [e [=]].
    + intros [[e [=]]|(? & e & [=])].
Qed.

(** A row that lacks its tag, after rows that have their three fields,
    stops the load of the lookup table: [None.lower()] raises
    [AttributeError], which the handler of the row does not catch and
    the handler of the file turns into [IOError]. The rows after it are
    not read. *)
Lemma load_lookup_table_row_without_tag
    (getprotobyname : string → option Z) (open_csv : string → source (list string))
    name before row after stop dstport protocol number :
  DictReader (open_csv name) = Reads (before ++ row :: after) stop →
  Forall complete_row before →
  cell row "dstport" = Some dstport →
  cell row "protocol" = Some protocol →
  getprotobyname protocol = Some number →
  dict_get row "tag" = Some None →
  load_lookup_table getprotobyname open_csv name
  = (omap (row_diagnostic getprotobyname) before,
     inl (Exn IOError ("Failed to read the lookup table file: "
                       +:+ "'NoneType' object has no attribute 'lower'"))).
Proof.
  intros Hopen Hall Hd Hp Hn Ht. unfold load_lookup_table, for_source. rewrite Hopen.
  assert (for_each (before ++ row :: after) (load_lookup_table_row getprotobyname) []
          = (omap (row_diagnostic getprotobyname) before,
             inl (Exn AttributeError "'NoneType' object has no attribute 'lower'")))
    as ->; [|by simpl; rewrite app_nil_r].
  clear Hopen. generalize (@nil (lookup_key * string)). intros lookup.
  revert lookup. induction Hall as [|r rs Hr _ IH]; intros lookup.
  - cbn [app for_each omap list_omap]. unfold load_lookup_table_row.
    rewrite (dict_item_cell _ _ _ Hd), Py_ret_bind.
    rewrite (dict_item_cell _ _ _ Hp), Py_ret_bind.
    rewrite (get_protocol_number_resolved _ _ _ Hn).
    unfold dict_item. rewrite Ht. reflexivity.
  - cbn [app for_each omap list_omap].
    rewrite load_lookup_table_row_complete by done.
    destruct Hr as ([d' Hd'] & [p' Hp'] & [t' Ht']).
    unfold row_diagnostic at 1 2. unfold row_entry. rewrite Hd', Hp', Ht'. simpl.
    destruct (getprotobyname p') as [n'|]; simpl; unfold mbind, Py_bind; by rewrite IH.
Qed.

(** C9. The load of the lookup table of [short_row.csv], whose second
    row lacks its tag, prints no diagnostic and does not go on to the
    third row: it raises [IOError], although the file is read without
    error. *)
Theorem load_lookup_table_short_row_aborts :
  sample_open_csv "short_row.csv"
  = Reads [["dstport"; "protocol"; "tag"]; ["80"; "tcp"]; ["443"; "tcp"; "https"]] None
  ∧ load_lookup_table sample_getprotobyname sample_open_csv "short_row.csv"
    = ([], inl (Exn IOError
         "Failed to read the lookup table file: 'NoneType' object has no attribute 'lower'")).
Proof. split; reflexivity. Qed.

(* ================================================================= *)
(** ** More on the two counts *)

Section fold_bump.
Context {A K : Type} `{EqDecision K}.
Variable f : A → K.
Implicit Types (d : dict K Z) (xs : list A).


Lemma fold_bump_get xs k :
  dict_get (fold_left (λ d x, dict_bump d (f x)) xs []) k = counter (count_of f k xs).
Proof.
  assert (∀ d, dict_get (fold_left (λ d x, dict_bump d (f x)) xs d) k
               = if decide (count_of f k xs = 0%nat) then dict_get d k
                 else Some (default 0 (dict_get d k) + Z.of_nat (count_of f k xs)))
    as Hgen.
  { unfold count_of. induction xs as [|x xs IH]; intros d; [done|].
    cbn [fold_left]. rewrite IH, filter_cons, dict_get_bump.
    destruct (decide (f x = k)) as [<-|Hne].
    - destruct (decide (f x = f x)); [|done]. cbn [length].
      destruct (decide (S _ = 0%nat)); [done|].
      destruct (decide (_ = 0%nat)) as [->|]; f_equal; simpl; lia.
    - destruct (decide (k = f x)); [congruence|]. done. }
  rewrite Hgen. unfold counter. simpl. by destruct (decide _).
Qed.

Lemma dict_keys_bump d k :
  dict_keys (dict_bump d k)
  = if decide (k ∈ dict_keys d) then dict_keys d else dict_keys d ++ [k].
Proof.
  unfold dict_bump. rewrite dict_keys_set. unfold dict_contains.
  destruct (dict_get d k) eqn:Hget.
  - rewrite decide_True; [done|].
    destruct (decide (k ∈ dict_keys d)) as [|Hno]; [done|].
    apply dict_get_None_keys in Hno. congruence.
  - rewrite decide_False; [done|]. by apply dict_get_None_keys.
Qed.

Lemma fold_bump_keys xs d :
  dict_keys (fold_left (λ d x, dict_bump d (f x)) xs d)
  = dict_keys d ++ filter (λ k, k ∉ dict_keys d) (first_seen (f <$> xs)).
Proof.
  revert d. induction xs as [|x xs IH]; intros d.
  - simpl. by rewrite app_nil_r.
  - cbn [fold_left fmap list_fmap first_seen]. rewrite IH, dict_keys_bump, filter_cons.
    destruct (decide (f x ∈ dict_keys d)) as [Hin|Hout].
    + rewrite decide_False by tauto. f_equal.
      rewrite list_filter_filter. apply list_filter_iff. intros k. split; [|tauto].
      intros Hk. split; [done|]. intros ->. done.
    + rewrite decide_True by done. rewrite <- app_assoc. f_equal. simpl. f_equal.
      rewrite list_filter_filter. apply list_filter_iff. intros k.
      rewrite elem_of_app, list_elem_of_singleton. tauto.
Qed.

Lemma filter_not_in_nil (l : list K) : filter (λ k, k ∉ []) l = l.
Proof.
  induction l as [|x l IH]; [done|].
  rewrite filter_cons_True by apply not_elem_of_nil. by rewrite IH.
Qed.

Lemma fold_bump_keys_nil xs :
  dict_keys (fold_left (λ d x, dict_bump d (f x)) xs []) = first_seen (f <$> xs).
Proof. rewrite fold_bump_keys. apply filter_not_in_nil. Qed.

Lemma first_seen_NoDup (l : list K) : NoDup (first_seen l).
Proof.
  induction l as [|x l IH]; simpl; [constructor|].
  constructor; [|by apply NoDup_filter].
  rewrite list_elem_of_filter. tauto.
Qed.

Lemma first_seen_elem (l : list K) k : k ∈ first_seen l ↔ k ∈ l.
Proof.
  induction l as [|x l IH]; simpl; [done|].
  rewrite !elem_of_cons, list_elem_of_filter, IH.
  destruct (decide (k = x)); tauto.
Qed.
End fold_bump.

(** X1. The counter [map_port_proto_tag] returns for a tag is the number
    of records classified under the tag; a tag under which no record is
    classified has no counter. *)
Theorem map_port_proto_tag_counter
    (lookup : dict lookup_key string) (dstport_proto : list flow_record) :
  ∃ tag_count_dict,
    map_port_proto_tag lookup dstport_proto = ([], inr tag_count_dict)
    ∧ ∀ tag, dict_get tag_count_dict tag
             = counter (count_of (tag_of lookup) tag dstport_proto).
Proof.
  eexists. split; [apply map_port_proto_tag_eq|].
  intros tag. apply fold_bump_get.
Qed.

(** X2. The keys of the mapping [map_port_proto_tag] returns are the
    tags of the records, each once, in the order in which the tags
    first occur in the record list. *)
Theorem map_port_proto_tag_keys_first_seen
    (lookup : dict lookup_key string) (dstport_proto : list flow_record) :
  ∃ tag_count_dict,
    map_port_proto_tag lookup dstport_proto = ([], inr tag_count_dict)
    ∧ dict_keys tag_count_dict = first_seen (tag_of lookup <$> dstport_proto)
    ∧ NoDup (dict_keys tag_count_dict)
    ∧ ∀ tag, tag ∈ dict_keys tag_count_dict
             ↔ ∃ record, record ∈ dstport_proto ∧ tag_of lookup record = tag.
Proof.
  eexists. split; [apply map_port_proto_tag_eq|].
  rewrite fold_bump_keys_nil.
  split_and!; [done | apply first_seen_NoDup |].
  intros tag. rewrite first_seen_elem, list_elem_of_fmap. split.
  - intros (record & -> & Hin). eauto.
  - intros (record & Hin & <-). eauto.
Qed.


(* ================================================================= *)
(** ** Numerals, white space and letter case *)

Lemma digit_val_pretty_N_char d :
  (d < 10)%N →
  Ascii.eqb (pretty_N_char d) "_"%char = false
  ∧ PyStr.digit_val (pretty_N_char d) = Some (Z.of_N d).
Proof.
  intros Hd.
  assert (d = 0 ∨ d = 1 ∨ d = 2 ∨ d = 3 ∨ d = 4 ∨ d = 5 ∨ d = 6 ∨ d = 7 ∨ d = 8 ∨ d = 9)%N
    as Hcases by lia.
  repeat (destruct Hcases as [->|Hcases]; [by split|]). by subst.
Qed.

Lemma int_digits_pretty_N_go x s :
  (0 < x)%N →
  PyStr.int_digits 0 false (pretty_N_go x s) = PyStr.int_digits (Z.of_N x) true s.
Proof.
  revert s. induction (N.lt_wf_0 x) as [x _ IH]; intros s Hx.
  rewrite pretty_N_go_step by done.
  destruct (digit_val_pretty_N_char (x `mod` 10)) as [Hu Hd];
    [by apply N.mod_lt|].
  assert (Z.of_N x = 10 * Z.of_N (x `div` 10) + Z.of_N (x `mod` 10)) as Hx10.
  { pose proof (N.div_mod x 10 ltac:(done)) as Hdm.
    remember (x `div` 10)%N as q. remember (x `mod` 10)%N as r.
    clear -Hdm. lia. }
  destruct (decide (x `div` 10 = 0)%N) as [Hz|Hnz].
  - rewrite Hz, pretty_N_go_0. cbn [PyStr.int_digits]. rewrite Hu, Hd.
    rewrite Hx10, Hz. done.
  - rewrite IH; [|by apply N.div_lt|by apply N.neq_0_lt_0].
    cbn [PyStr.int_digits]. rewrite Hu, Hd. by rewrite Hx10.
Qed.

Lemma int_digits_no_space acc seen s v :
  PyStr.int_digits acc seen s = Some v → no_space s = true.
Proof.
  revert acc seen. induction s as [|c s IH]; intros acc seen; [done|].
  cbn [PyStr.int_digits no_space].
  destruct (Ascii.eqb c "_") eqn:Hu.
  - apply Ascii.eqb_eq in Hu as ->. destruct seen; [|done].
    intros H. by rewrite (IH _ _ H).
  - destruct (PyStr.digit_val c) as [d|] eqn:Hd; [|done].
    intros H. rewrite (IH _ _ H), andb_true_r.
    clear -Hd. destruct c as [[] [] [] [] [] [] [] []]; by vm_compute in Hd |- *.
Qed.

Lemma rstrip_no_space s : no_space s = true → PyStr.rstrip s = s.
Proof.
  induction s as [|c s IH]; [done|]. cbn [no_space PyStr.rstrip].
  intros [Hc Hs]%andb_true_iff. rewrite IH by done.
  destruct s; [|done]. by destruct (PyStr.isspace c).
Qed.

Lemma strip_no_space s : no_space s = true → PyStr.strip s = s.
Proof.
  intros Hs. unfold PyStr.strip.
  assert (PyStr.lstrip s = s) as ->; [|by apply rstrip_no_space].
  destruct s as [|c s]; [done|]. cbn [no_space] in Hs. simpl.
  by destruct (PyStr.isspace c).
Qed.

Lemma int_of_int_digits s v :
  PyStr.int_digits 0 false s = Some v → PyStr.int s = Some v.
Proof.
  intros H. unfold PyStr.int.
  rewrite strip_no_space by (by eapply int_digits_no_space).
  destruct s as [|c s]; [done|].
  destruct c as [[] [] [] [] [] [] [] []]; first [discriminate H | exact H].
Qed.

(** [int(str(n))] is [n]. *)
Lemma int_str n : PyStr.int (PyStr.str n) = Some n.
Proof.
  unfold PyStr.str, pretty, pretty_Z.
  assert (∀ p, PyStr.int_digits 0 false (pretty p) = Some (Z.pos p)) as Hpos.
  { intros p. unfold pretty, pretty_positive, pretty, pretty_N.
    destruct (decide (N.pos p = 0%N)); [done|].
    by rewrite int_digits_pretty_N_go. }
  destruct n as [|p|p].
  - reflexivity.
  - by apply int_of_int_digits.
  - unfold PyStr.int. rewrite strip_no_space.
    + rewrite string_app_cons, string_app_nil. by rewrite Hpos.
    + rewrite string_app_cons, string_app_nil. cbn [no_space].
      by rewrite (int_digits_no_space _ _ _ _ (Hpos p)).
Qed.

Lemma lower_char_idemp c : PyStr.lower_char (PyStr.lower_char c) = PyStr.lower_char c.
Proof. destruct c as [[] [] [] [] [] [] [] []]; reflexivity. Qed.

Lemma lower_idemp s : PyStr.lower (PyStr.lower s) = PyStr.lower s.
Proof.
  induction s as [|c s IH]; [done|]. simpl. by rewrite lower_char_idemp, IH.
Qed.

(** The fields of [split] are not empty and hold no white space. *)
Lemma split_fields s :
  Forall (λ field, field ≠ EmptyString ∧ no_space field = true) (PyStr.split s).
Proof.
  induction s as [|c s IH]; [constructor|]. cbn [PyStr.split].
  destruct (PyStr.isspace c) eqn:Hc; [done|].
  destruct s as [|c' s'].
  - constructor; [|constructor]. split; [done|]. cbn [no_space]. by rewrite Hc.
  - destruct (PyStr.isspace c') eqn:Hc'.
    + constructor; [|done]. split; [done|]. cbn [no_space]. by rewrite Hc.
    + destruct (PyStr.split (String c' s')) as [|w ws].
      * constructor; [|constructor]. split; [done|]. cbn [no_space]. by rewrite Hc.
      * apply Forall_cons in IH as [[_ Hw] Hws]. constructor; [|done].
        split; [done|]. cbn [no_space]. by rewrite Hc, Hw.
Qed.

(* ================================================================= *)
(** ** More on the two loads *)

Lemma issubclass_Exception c : issubclass c Exception = true.
Proof. by destruct c. Qed.

(** A loop returns in a state that keeps what every round keeps. *)
Lemma for_each_invariant {A S : Type} (I : S → Prop) (body : S → A → Py S) xs s out s' :
  (∀ s x out s', I s → body s x = (out, inr s') → I s') →
  I s → for_each xs body s = (out, inr s') → I s'.
Proof.
  intros Hbody. revert s out. induction xs as [|x xs IH]; intros s out Hs.
  - by intros [= _ <-].
  - cbn [for_each]. destruct (body s x) as [o [e|s1]] eqn:Hstep; [done|].
    unfold mbind, Py_bind.
    destruct (for_each xs body s1) as [o' r] eqn:Hrest. intros [= _ ->].
    eapply IH; [|done]. by eapply Hbody.
Qed.

(** What a wrapped load returns, its loop returned. *)
Lemma try_except_Exception_returns {A : Type} (m : Py A) h out (a : A) :
  (∀ e, ∃ out' e', h e = (out', inl e')) →
  try_except m Exception h = (out, inr a) → m = (out, inr a).
Proof.
  intros Hh. destruct m as [o [e|a']]; [|done]. simpl.
  rewrite issubclass_Exception. destruct (Hh e) as (o' & e' & ->). done.
Qed.

Lemma for_source_returns {A S : Type} (src : source A) (body : S → A → Py S) s out s' :
  for_source src body s = (out, inr s') →
  ∃ items, src = Reads items None ∧ for_each items body s = (out, inr s').
Proof.
  destruct src as [e|items [e|]]; [done| |]; unfold for_source, mbind, Py_bind;
    destruct (for_each items body s) as [o [e'|s1]] eqn:Hloop; simpl; try done.
  rewrite app_nil_r. intros [= <- <-]. eauto.
Qed.

Section lookup_table_entries.
Variable getprotobyname : string → option Z.

(** A row leaves the table as it is or enters one resolved entry. *)
Lemma load_lookup_table_row_returns lookup row out lookup' :
  load_lookup_table_row getprotobyname lookup row = (out, inr lookup') →
  lookup' = lookup
  ∨ ∃ dstport protocol number tag,
      getprotobyname protocol = Some number
      ∧ lookup' = dict_set lookup (dstport, PyStr.str number) (PyStr.lower tag).
Proof.
  unfold load_lookup_table_row, dict_item, get_protocol_number, socket_getprotobyname.
  destruct (dict_get row "dstport") as [dstport|]; [|done].
  rewrite Py_ret_bind.
  destruct (dict_get row "protocol") as [[protocol|]|]; [|done..].
  rewrite Py_ret_bind.
  destruct (getprotobyname protocol) as [number|] eqn:Hn.
  - destruct (dict_get row "tag") as [[tag|]|]; [|done..].
    intros [= _ <-]. right. eauto 10.
  - intros [= _ <-]. by left.
Qed.

Lemma Forall_dict_set {K V : Type} `{EqDecision K} (P : K * V → Prop)
    (d : dict K V) k v :
  Forall P d → P (k, v) → Forall P (dict_set d k v).
Proof.
  intros Hd Hkv. induction Hd as [|[k0 v0] d H0 Hd IH]; simpl.
  - by constructor.
  - destruct (decide (k = k0)) as [<-|]; by constructor.
Qed.

Lemma load_lookup_table_row_keeps lookup row out lookup' :
  NoDup (dict_keys lookup) ∧ Forall (resolved_entry getprotobyname) lookup →
  load_lookup_table_row getprotobyname lookup row = (out, inr lookup') →
  NoDup (dict_keys lookup') ∧ Forall (resolved_entry getprotobyname) lookup'.
Proof.
  intros [Hnd Hall] Hrow.
  apply load_lookup_table_row_returns in Hrow
    as [->|(dstport & protocol & number & tag & Hn & ->)]; [done|].
  split; [by apply dict_keys_set_NoDup|].
  apply Forall_dict_set; [done|]. split; [by eauto | apply lower_idemp].
Qed.
End lookup_table_entries.

Lemma load_lookup_table_invariant
    (getprotobyname : string → option Z) (open_csv : string → source (list string))
    name out lookup :
  load_lookup_table getprotobyname open_csv name = (out, inr lookup) →
  NoDup (dict_keys lookup) ∧ Forall (resolved_entry getprotobyname) lookup.
Proof.
  intros Hload. unfold load_lookup_table in Hload.
  apply try_except_Exception_returns in Hload; [|by eauto].
  apply for_source_returns in Hload as (rows & _ & Hloop).
  refine (for_each_invariant
            (λ lookup, NoDup (dict_keys lookup)
                       ∧ Forall (resolved_entry getprotobyname) lookup)
            _ rows [] out lookup _ _ Hloop).
  - intros s row o s'. apply load_lookup_table_row_keeps.
  - split; [apply NoDup_nil_2 | constructor].
Qed.

(** X4. A table that [load_lookup_table] returns has no key twice; in
    every entry the protocol part of the key is [str(n)] for a number
    [n] that [getprotobyname] gave for some name, and the tag is in
    lower case. *)
Theorem load_lookup_table_resolved_entries
    (getprotobyname : string → option Z) (open_csv : string → source (list string))
    (lookup_table_file_name : string) (out : list string)
    (lookup : dict lookup_key string) :
  load_lookup_table getprotobyname open_csv lookup_table_file_name = (out, inr lookup) →
  NoDup (dict_keys lookup)
  ∧ ∀ key tag, (key, tag) ∈ lookup →
      (∃ protocol number,
         getprotobyname protocol = Some number ∧ key.2 = PyStr.str number)
      ∧ PyStr.lower tag = tag.
Proof.
  intros [Hnd Hall]%load_lookup_table_invariant.
  split; [done|]. intros key tag Hin.
  rewrite Forall_forall in Hall. apply (Hall (key, tag) Hin).
Qed.

(** X5. Matching is by the text of the protocol field: under a table
    that [load_lookup_table] returned, a record whose protocol field is
    not the decimal numeral of a number (a leading zero, a sign, an
    underscore, or no number at all) is classified untagged, whatever
    its port. *)
Theorem noncanonical_protocol_untagged
    (getprotobyname : string → option Z) (open_csv : string → source (list string))
    (lookup_table_file_name : string) (out : list string)
    (lookup : dict lookup_key string) (port protocol : string) :
  load_lookup_table getprotobyname open_csv lookup_table_file_name = (out, inr lookup) →
  ¬ canonical_numeral protocol →
  map_port_proto_tag lookup [(port, protocol)] = ([], inr [("untagged", 1)]).
Proof.
  intros Hload Hnot.
  assert (dict_get lookup (Some port, protocol) = None) as Hget.
  { destruct (dict_get lookup (Some port, protocol)) as [tag|] eqn:Hget; [|done].
    apply dict_get_Some_elem in Hget.
    apply load_lookup_table_invariant in Hload as [_ Hall].
    rewrite Forall_forall in Hall.
    destruct (Hall _ Hget) as [(p & n & _ & Hkey) _]. simpl in Hkey.
    destruct Hnot. unfold canonical_numeral. by rewrite Hkey, int_str. }
  rewrite map_port_proto_tag_eq. unfold tag_of. simpl. by rewrite Hget.
Qed.

Lemma fold_set_get_None {A K V : Type} `{EqDecision K}
    (kf : A → K) (vf : A → V) (l : list A) (d : dict K V) k :
  dict_get d k = None → (∀ x, x ∈ l → kf x ≠ k) →
  dict_get (fold_left (λ d x, dict_set d (kf x) (vf x)) l d) k = None.
Proof.
  revert d. induction l as [|x l IH]; intros d Hd Hl; [done|].
  cbn [fold_left]. apply IH.
  - rewrite dict_get_set_ne; [done|]. intros ->. by apply (Hl x); [left|].
  - intros y Hy. apply Hl. by right.
Qed.

Lemma DictReader_row_get_None fieldnames row column :
  column ∉ fieldnames → dict_get (DictReader_row fieldnames row) column = None.
Proof.
  intros Hno. unfold DictReader_row.
  apply (fold_set_get_None (λ key, key) (λ _, None)).
  - apply (fold_set_get_None fst (λ kv, Some kv.2)); [done|].
    intros [k v] Hin Heq. simpl in Heq. subst k. apply Hno.
    by apply elem_of_zip_l in Hin.
  - intros key Hin ->. apply Hno. by eapply subseteq_drop.
Qed.

Lemma load_lookup_table_row_without_dstport getprotobyname lookup row :
  dict_get row "dstport" = None →
  load_lookup_table_row getprotobyname lookup row
  = ([], inl (Exn KeyError "'dstport'")).
Proof.
  intros Hget. unfold load_lookup_table_row, dict_item. by rewrite Hget.
Qed.

(** X6. A lookup file whose first row does not name the column
    [dstport] (a file without its header line, say) makes the load
    raise [IOError] at the first row that is not empty; no row is
    loaded and nothing is printed. *)
Theorem load_lookup_table_without_dstport_column
    (getprotobyname : string → option Z) (open_csv : string → source (list string))
    (lookup_table_file_name : string) (fieldnames : list string)
    (rows : list (list string)) (stop : option exn) :
  open_csv lookup_table_file_name = Reads (fieldnames :: rows) stop →
  "dstport" ∉ fieldnames →
  Exists (λ row, row ≠ []) rows →
  load_lookup_table getprotobyname open_csv lookup_table_file_name
  = ([], inl (Exn IOError "Failed to read the lookup table file: 'dstport'")).
Proof.
  intros Hopen Hno Hex. unfold load_lookup_table. rewrite Hopen. cbn [DictReader].
  destruct (filter (λ row, row ≠ []) rows) as [|row rest] eqn:Hrows.
  - apply Exists_exists in Hex as (row & Hin & Hrow).
    assert (row ∈ filter (λ row, row ≠ []) rows) as Hf
      by by apply list_elem_of_filter.
    rewrite Hrows in Hf. by apply elem_of_nil in Hf.
  - cbn [fmap list_fmap for_source for_each].
    rewrite load_lookup_table_row_without_dstport
      by by apply DictReader_row_get_None.
    reflexivity.
Qed.

(* ----------------------------------------------------------------- *)

Lemma omap_filter_None_length {A B : Type} (f : A → option B) (l : list A) :
  (length (omap f l) + length (filter (λ x, f x = None) l) = length l)%nat.
Proof.
  induction l as [|x l IH]; [done|]. cbn [omap list_omap]. rewrite filter_cons.
  destruct (f x) as [y|]; simpl; lia.
Qed.

(** X7. When the flow log is read to its end, every line is accounted
    for: the number of records returned and the number of diagnostics
    printed add up to the number of lines. *)
Theorem load_flow_logs_accounts_for_lines
    (open_text : string → source string) (flow_logs_file_name : string)
    (lines : list string) :
  open_text flow_logs_file_name = Reads lines None →
  ∃ out dstport_proto,
    load_dstport_protocol_flow_logs open_text flow_logs_file_name
    = (out, inr dstport_proto)
    ∧ (length dstport_proto + length out = length lines)%nat.
Proof.
  intros Hopen. unfold load_dstport_protocol_flow_logs, for_source. rewrite Hopen.
  rewrite for_each_load_flow_logs_line. unfold mbind, Py_bind. simpl.
  do 2 eexists. split; [done|].
  rewrite app_nil_r, length_fmap. apply omap_filter_None_length.
Qed.

(** X8. The flow-log load raises only when the file cannot be opened or
    cannot be read to its end; what it raises then is [IOError] with
    the message of the cause after a fixed prefix, and it returns no
    record for the lines read before. *)
Theorem load_flow_logs_raises_IOError
    (open_text : string → source string) (flow_logs_file_name : string)
    (out : list string) (e : exn) :
  load_dstport_protocol_flow_logs open_text flow_logs_file_name = (out, inl e) →
  ∃ cause,
    (open_text flow_logs_file_name = OpenFails cause
     ∨ ∃ lines, open_text flow_logs_file_name = Reads lines (Some cause))
    ∧ e = Exn IOError ("Failed to read the flow log file: " +:+ exn_msg cause).
Proof.
  unfold load_dstport_protocol_flow_logs, for_source.
  destruct (open_text flow_logs_file_name) as [cause|lines [cause|]].
  - simpl. rewrite issubclass_Exception. intros [= _ <-]. eauto.
  - rewrite for_each_load_flow_logs_line. unfold mbind, Py_bind. simpl.
    rewrite issubclass_Exception. intros [= _ <-]. eauto.
  - rewrite for_each_load_flow_logs_line. unfold mbind, Py_bind. simpl. done.
Qed.

(** X9. In every record the flow-log load returns, the port and the
    protocol are not empty and hold no white space. *)
Theorem load_flow_logs_fields_no_space
    (open_text : string → source string) (flow_logs_file_name : string)
    (out : list string) (dstport_proto : list flow_record) :
  load_dstport_protocol_flow_logs open_text flow_logs_file_name
  = (out, inr dstport_proto) →
  ∀ dstport protocol, (dstport, protocol) ∈ dstport_proto →
    (dstport ≠ EmptyString ∧ no_space dstport = true)
    ∧ (protocol ≠ EmptyString ∧ no_space protocol = true).
Proof.
  intros Hload dstport protocol Hin. unfold load_dstport_protocol_flow_logs in Hload.
  apply try_except_Exception_returns in Hload; [|by eauto].
  apply for_source_returns in Hload as (lines & _ & Hloop).
  rewrite for_each_load_flow_logs_line in Hloop. injection Hloop as _ <-.
  simpl in Hin. apply list_elem_of_omap in Hin as (line & _ & Hline).
  unfold parseLine in Hline. cbn zeta in Hline.
  destruct (decide _) as [|_]; [done|].
  destruct (PyStr.split line !! 6%nat) as [p|] eqn:Hp; [|done].
  destruct (PyStr.split line !! 7%nat) as [q|] eqn:Hq; [|done].
  injection Hline as -> ->.
  pose proof (split_fields line) as Hall. rewrite Forall_forall in Hall.
  split; apply Hall; by eapply list_elem_of_lookup_2.
Qed.

(* ================================================================= *)
(** ** More on protocol names and numbers *)

Lemma table_get_unchanged vars table N :
  (∀ Q, ("IPPROTO_" +:+ Q, N) ∉ vars) →
  dict_get (fold_left (get_protocol_name_step "IPPROTO_") vars table) N
  = dict_get table N.
Proof.
  revert table. induction vars as [|[name num] vars IH]; intros table Hno; [done|].
  cbn [fold_left]. rewrite IH.
  - rewrite get_protocol_name_step_get.
    destruct (decide _) as [[Hs ->]|]; [|done].
    destruct (Hno (PyStr.slice_from (PyStr.len "IPPROTO_") name)).
    rewrite <- (startswith_slice _ _ Hs). left.
  - intros Q HQ. apply (Hno Q). by right.
Qed.

(** X10. When several constants [IPPROTO_*] of the [socket] module have
    the number [N], [get_protocol_name N] is the name of the last of
    them in the module's order. *)
Theorem get_protocol_name_last_constant
    (before after : list (string * Z)) (N : Z) (P : string) :
  (∀ Q, ("IPPROTO_" +:+ Q, N) ∉ after) →
  get_protocol_name (before ++ ("IPPROTO_" +:+ P, N) :: after) N = P.
Proof.
  intros Hafter. rewrite get_protocol_name_table, fold_left_app. cbn [fold_left].
  rewrite table_get_unchanged by done.
  rewrite get_protocol_name_step_get, decide_True.
  - by rewrite slice_from_app.
  - split; [apply startswith_app | done].
Qed.

(** X11. The two resolvers compose: the number string that
    [get_protocol_number] returns for the canonical name [P] of a
    well-known number, read as the protocol field of a flow record, is
    counted by [get_port_protocol_counts] under the name [P]. *)
Theorem resolved_number_counted_under_name
    (socket_vars : list (string * Z)) (getprotobyname : string → option Z)
    (N : Z) (P port : string) :
  well_known socket_vars getprotobyname N P →
  ∃ number,
    get_protocol_number getprotobyname (Some P) = ([], inr number)
    ∧ get_port_protocol_counts socket_vars [(port, number)]
      = ([], inr [((port, P), 1)]).
Proof.
  intros (Hname & Hone & Hdb). exists (PyStr.str N).
  split; [by apply get_protocol_number_resolved|].
  unfold get_port_protocol_counts. rewrite for_each_counts_numeric.
  - unfold port_protocol_key. simpl. rewrite int_str. simpl.
    by rewrite (get_protocol_name_named _ N P).
  - repeat constructor. unfold numeric_protocol. simpl. rewrite int_str. by eexists.
Qed.

(* ================================================================= *)
(** ** Writing the output *)

Section writing.
Variable limit : option (nat * exn).

Lemma FileIO_bind_unfold {A B : Type} (m : FileIO A) (k : A → FileIO B) written :
  (m ≫= k) written
  = match m written with
    | (written', inl e) => (written', inl e)
    | (written', inr a) => k a written'
    end.
Proof. reflexivity. Qed.

(** Writing rows one after the other. *)
Lemma for_items_app {A : Type} (xs ys : list A) (body : A → FileIO unit) written :
  for_items (xs ++ ys) body written
  = match for_items xs body written with
    | (written', inl e) => (written', inl e)
    | (written', inr _) => for_items ys body written'
    end.
Proof.
  revert written. induction xs as [|x xs IH]; intros written; [done|].
  cbn [app for_items]. rewrite !FileIO_bind_unfold.
  destruct (body x written) as [w [e|[]]]; [done|]. apply IH.
Qed.

Lemma for_items_fmap {A : Type} (body : A → FileIO unit) (g : A → list string)
    (xs : list A) written :
  (∀ x, body x = writerow limit (g x)) →
  for_items xs body written = for_items (g <$> xs) (writerow limit) written.
Proof.
  intros Hbody. revert written. induction xs as [|x xs IH]; intros written; [done|].
  cbn [fmap list_fmap for_items]. rewrite !FileIO_bind_unfold, Hbody.
  destruct (writerow limit (g x) written) as [w [e|[]]]; [done|]. apply IH.
Qed.

Lemma write_output_rows_for_items tag_dict port_proto_dict :
  write_output_rows limit tag_dict port_proto_dict []
  = for_items (output_rows tag_dict port_proto_dict) (writerow limit) [].
Proof.
  unfold write_output_rows, output_rows.
  rewrite (for_items_app (_ :: _)). cbn [for_items].
  rewrite !FileIO_bind_unfold.
  destruct (writerow limit ["Tag"; "Count"] []) as [w1 [e|[]]]; [done|].
  rewrite FileIO_bind_unfold.
  rewrite (for_items_fmap _ (λ item, [item.1; PyStr.str item.2]))
    by (by intros []).
  destruct (for_items _ (writerow limit) w1) as [w2 [e|[]]]; [done|].
  cbn [app for_items]. rewrite !FileIO_bind_unfold.
  destruct (writerow limit [] w2) as [w3 [e|[]]]; [done|].
  rewrite !FileIO_bind_unfold.
  destruct (writerow limit ["Port"; "Protocol"; "Count"] w3) as [w4 [e|[]]]; [done|].
  by apply for_items_fmap; intros [].
Qed.

(** What reaches a file that takes the rows. *)
Lemma for_items_writerow_takes rows written :
  sink_takes limit (length written + length rows) →
  for_items rows (writerow limit) written = (written ++ rows, inr tt).
Proof.
  revert written. induction rows as [|row rows IH]; intros written Htakes.
  - by rewrite app_nil_r.
  - cbn [for_items]. rewrite FileIO_bind_unfold.
    assert (writerow limit row written = (written ++ [row], inr tt)) as ->.
    { unfold writerow. destruct limit as [[n e]|]; [|done].
      simpl in Htakes. rewrite decide_True; [done|]. lia. }
    rewrite IH, <- app_assoc; [done|].
    destruct limit as [[n e]|]; [|done]. simpl in *.
    rewrite length_app. simpl. lia.
Qed.
End writing.


(** X12. When the output file can be opened and takes as many rows as
    there are to write, [write_output_file] leaves in it the header
    [Tag,Count], a row for each tag in the order of the mapping, an
    empty row, the header [Port,Protocol,Count] and a row for each
    (port, protocol name) in the order of the mapping, three rows more
    than counters; it prints that the output was written, and
    returns. *)
Theorem write_output_file_rows
    (open_out : string → sink) (output_file_name : string)
    (limit : option (nat * exn))
    (tag_dict : dict string Z) (port_proto_dict : dict (string * string) Z) :
  open_out output_file_name = SinkAccepts limit →
  sink_takes limit (length (output_rows tag_dict port_proto_dict)) →
  write_output_file open_out output_file_name tag_dict port_proto_dict
  = (Some (output_rows tag_dict port_proto_dict),
     (["Output written to file " +:+ output_file_name], inr tt))
  ∧ length (output_rows tag_dict port_proto_dict)
    = (3 + length tag_dict + length port_proto_dict)%nat.
Proof.
  intros Hopen Htakes. split.
  - unfold write_output_file. rewrite Hopen, write_output_rows_for_items.
    by rewrite for_items_writerow_takes.
  - unfold output_rows. rewrite !length_app, !length_cons, !length_fmap. simpl. lia.
Qed.


(* ================================================================= *)
(** ** The main function *)

Lemma Py_bind_inr {A B : Type} out (a : A) (f : A → Py B) :
  (out, inr a) ≫= f = let '(out', r) := f a in (out ++ out', r).
Proof. reflexivity. Qed.

Lemma Py_bind_inl {A B : Type} out (e : exn) (f : A → Py B) :
  (out, @inl exn A e) ≫= f = (out, inl e).
Proof. reflexivity. Qed.

(** What a wrapped load raises is [IOError]. *)
Lemma try_except_Exception_raises {A : Type} (m : Py A) prefix out e :
  try_except m Exception (λ e, raise (Exn IOError (prefix +:+ exn_msg e))) = (out, inl e) →
  ∃ cause, e = Exn IOError (prefix +:+ exn_msg cause).
Proof.
  destruct m as [o [cause|a]]; [|done]. simpl. rewrite issubclass_Exception.
  intros [= _ <-]. eauto.
Qed.

Lemma get_port_protocol_counts_outcome socket_vars port_protocol :
  (∃ counts, get_port_protocol_counts socket_vars port_protocol = ([], inr counts))
  ∨ (∃ msg, get_port_protocol_counts socket_vars port_protocol
            = ([], inl (Exn ValueError msg))).
Proof.
  unfold get_port_protocol_counts. generalize (@nil (string * string * Z)).
  induction port_protocol as [|[port protocol] records IH]; intros d.
  - left. by eexists.
  - cbn [for_each]. destruct (PyStr.int protocol) as [n|] eqn:Hn.
    + rewrite get_port_protocol_counts_step_numeric, Py_ret_bind by (by exists n).
      apply IH.
    + rewrite get_port_protocol_counts_step_invalid by done. right. by eexists.
Qed.

Lemma write_output_file_outcome open_out name tag_dict port_proto_dict :
  (∃ rows, write_output_file open_out name tag_dict port_proto_dict
           = (Some rows, (["Output written to file " +:+ name], inr tt)))
  ∨ (∃ file msg, write_output_file open_out name tag_dict port_proto_dict
                 = (file, ([], inl (Exn IOError msg)))).
Proof.
  unfold write_output_file. destruct (open_out name) as [e|limit].
  - right. simpl. rewrite issubclass_Exception. by do 2 eexists.
  - destruct (write_output_rows limit tag_dict port_proto_dict []) as [w [e|[]]].
    + right. simpl. rewrite issubclass_Exception. by do 2 eexists.
    + left. by eexists.
Qed.

Section main_facts.
Variable socket_vars : list (string * Z).
Variable getprotobyname : string → option Z.
Variable open_csv : string → source (list string).
Variable open_text : string → source string.
Variable open_out : string → sink.
Variable args : Namespace.

Lemma main_lookup_table_raises out msg :
  load_lookup_table getprotobyname open_csv (lookup_file args)
  = (out, inl (Exn IOError msg)) →
  main socket_vars getprotobyname open_csv open_text open_out args
  = (None, (out ++ ["I/O error: " +:+ msg], inr tt)).
Proof. intros Hl. unfold main. rewrite Hl, Py_bind_inl. reflexivity. Qed.

Lemma main_flow_logs_raise out1 lookup out2 msg :
  load_lookup_table getprotobyname open_csv (lookup_file args) = (out1, inr lookup) →
  load_dstport_protocol_flow_logs open_text (flow_log_file args)
  = (out2, inl (Exn IOError msg)) →
  main socket_vars getprotobyname open_csv open_text open_out args
  = (None, ((out1 ++ out2) ++ ["I/O error: " +:+ msg], inr tt)).
Proof.
  intros Hl Hf. unfold main. rewrite Hl, Py_bind_inr, Hf, Py_bind_inl. reflexivity.
Qed.

Lemma main_counts_raise out1 lookup out2 records msg :
  load_lookup_table getprotobyname open_csv (lookup_file args) = (out1, inr lookup) →
  load_dstport_protocol_flow_logs open_text (flow_log_file args) = (out2, inr records) →
  get_port_protocol_counts socket_vars records = ([], inl (Exn ValueError msg)) →
  main socket_vars getprotobyname open_csv open_text open_out args
  = (None, ((out1 ++ out2) ++ ["Value error: " +:+ msg], inr tt)).
Proof.
  intros Hl Hf Hc. unfold main.
  rewrite Hl, Py_bind_inr, Hf, Py_bind_inr, map_port_proto_tag_eq, Py_ret_bind.
  rewrite Hc, Py_bind_inl. simpl. by rewrite !app_nil_r.
Qed.

Lemma main_counted out1 lookup out2 records tag_mapping port_proto_count :
  load_lookup_table getprotobyname open_csv (lookup_file args) = (out1, inr lookup) →
  load_dstport_protocol_flow_logs open_text (flow_log_file args) = (out2, inr records) →
  map_port_proto_tag lookup records = ([], inr tag_mapping) →
  get_port_protocol_counts socket_vars records = ([], inr port_proto_count) →
  main socket_vars getprotobyname open_csv open_text open_out args
  = match write_output_file open_out (output args) tag_mapping port_proto_count with
    | (file, (out3, inr _)) => (file, ((out1 ++ out2) ++ out3, inr tt))
    | (file, (out3, inl e)) =>
        (file, (((out1 ++ out2) ++ out3) ++ ["I/O error: " +:+ exn_msg e], inr tt))
    end.
Proof.
  intros Hl Hf Hm Hc.
  destruct (write_output_file_outcome open_out (output args) tag_mapping port_proto_count)
    as [(rows & Hw)|(file & msg & Hw)]; unfold main;
    rewrite Hl, Py_bind_inr, Hf, Py_bind_inr, Hm, Py_bind_inr, Hc, Py_bind_inr;
    simpl; rewrite Hw; simpl; by rewrite ?app_nil_r.
Qed.
End main_facts.

(** X14. [main] lets no exception out: whatever the files and the host,
    it returns, and the last line it prints is the note that the output
    was written (then the output file was opened), or a line
    [Value error: ...] (then the output file was not opened), or a line
    [I/O error: ...]. The clauses for [FileNotFoundError] and for any
    other exception are never taken: a missing file reaches [main] as
    [IOError]. *)
Theorem main_reports
    (socket_vars : list (string * Z)) (getprotobyname : string → option Z)
    (open_csv : string → source (list string)) (open_text : string → source string)
    (open_out : string → sink) (args : Namespace) :
  ∃ file out final,
    main socket_vars getprotobyname open_csv open_text open_out args
    = (file, (out ++ [final], inr tt))
    ∧ ((final = "Output written to file " +:+ output args ∧ is_Some file)
       ∨ (∃ msg, final = "Value error: " +:+ msg ∧ file = None)
       ∨ (∃ msg, final = "I/O error: " +:+ msg)).
Proof.
  destruct (load_lookup_table getprotobyname open_csv (lookup_file args))
    as [out1 [e1|lookup]] eqn:Hl.
  { destruct (try_except_Exception_raises _ _ _ _ Hl) as [cause ->].
    do 3 eexists. split; [by apply main_lookup_table_raises|]. eauto. }
  destruct (load_dstport_protocol_flow_logs open_text (flow_log_file args))
    as [out2 [e2|records]] eqn:Hf.
  { destruct (try_except_Exception_raises _ _ _ _ Hf) as [cause ->].
    do 3 eexists. split; [by eapply main_flow_logs_raise|]. eauto. }
  destruct (get_port_protocol_counts_outcome socket_vars records)
    as [[port_proto_count Hc]|[msg Hc]].
  2:{ do 3 eexists. split; [by eapply main_counts_raise|]. eauto. }
  rewrite (main_counted _ _ _ _ _ _ _ _ _ _ _ _ Hl Hf (map_port_proto_tag_eq _ _) Hc).
  destruct (write_output_file_outcome open_out (output args)
              (fold_left (λ d key, dict_bump d (tag_of lookup key)) records [])
              port_proto_count)
    as [(rows & ->)|(file & msg & ->)].
  - do 3 eexists. split; [done|]. left. split; [done | by eexists].
  - do 3 eexists. split; [done|]. eauto.
Qed.


(** X16. When both loads return and the protocol field of some record
    is not numeric, [main] prints the diagnostics of the two loads and a
    line [Value error: ...] and does not open the output file: nothing
    is written, the tag counts included. *)
Theorem main_value_error_writes_nothing
    (socket_vars : list (string * Z)) (getprotobyname : string → option Z)
    (open_csv : string → source (list string)) (open_text : string → source string)
    (open_out : string → sink) (args : Namespace)
    (out1 out2 : list string) (lookup : dict lookup_key string)
    (records : list flow_record) :
  load_lookup_table getprotobyname open_csv (lookup_file args) = (out1, inr lookup) →
  load_dstport_protocol_flow_logs open_text (flow_log_file args) = (out2, inr records) →
  Exists (λ record, PyStr.int record.2 = None) records →
  ∃ msg,
    main socket_vars getprotobyname open_csv open_text open_out args
    = (None, ((out1 ++ out2) ++ ["Value error: " +:+ msg], inr tt)).
Proof.
  intros Hl Hf Hex.
  destruct (for_each_counts_invalid socket_vars records [] Hex) as [msg Hc].
  exists msg. by eapply main_counts_raise.
Qed.

(** X17. When the lookup table cannot be loaded, [main] prints what the
    load printed and one line [I/O error: ...] with the message of the
    load; it does not read the flow log and does not open the output
    file. *)
Theorem main_stops_at_lookup_table
    (socket_vars : list (string * Z)) (getprotobyname : string → option Z)
    (open_csv : string → source (list string)) (open_text : string → source string)
    (open_out : string → sink) (args : Namespace) (out1 : list string) (e : exn) :
  load_lookup_table getprotobyname open_csv (lookup_file args) = (out1, inl e) →
  main socket_vars getprotobyname open_csv open_text open_out args
  = (None, (out1 ++ ["I/O error: " +:+ exn_msg e], inr tt)).
Proof.
  intros Hl. destruct (try_except_Exception_raises _ _ _ _ Hl) as [cause ->].
  by apply main_lookup_table_raises.
Qed.
(* ================================================================= *)
(** ** The functions on concrete inputs *)

Example split_flow_line :
  PyStr.split "2 123456789012 eni-0a1b2c3d 10.0.1.201 198.51.100.2 443 49153 6 25 20000 1620140761 1620140821 ACCEPT OK
" = ["2"; "123456789012"; "eni-0a1b2c3d"; "10.0.1.201"; "198.51.100.2";
     "443"; "49153"; "6"; "25"; "20000"; "1620140761"; "1620140821";
     "ACCEPT"; "OK"].
Proof. reflexivity. Qed.

Example split_blank : PyStr.split "   	  " = [].
Proof. reflexivity. Qed.

Example strip_ex : PyStr.strip "  a b 	" = "a b".
Proof. reflexivity. Qed.

Example lower_ex : PyStr.lower "sv_P1 Http" = "sv_p1 http".
Proof. reflexivity. Qed.

Example int_ex :
  PyStr.int "6" = Some 6 /\ PyStr.int "0999" = Some 999 /\
  PyStr.int "-1_0" = Some (-10) /\ PyStr.int "tcp" = None /\
  PyStr.int EmptyString = None /\ PyStr.int "1__0" = None /\ PyStr.int "+" = None.
Proof. repeat split; reflexivity. Qed.

Example str_ex : PyStr.str 999 = "999" /\ PyStr.str 0 = "0" /\ PyStr.str (-7) = "-7".
Proof. repeat split; reflexivity. Qed.

Example DictReader_row_full :
  DictReader_row ["dstport"; "protocol"; "tag"] ["80"; "tcp"; "http"]
  = [("dstport", Some "80"); ("protocol", Some "tcp"); ("tag", Some "http")].
Proof. reflexivity. Qed.

Example DictReader_row_short :
  DictReader_row ["dstport"; "protocol"; "tag"] ["80"; "tcp"]
  = [("dstport", Some "80"); ("protocol", Some "tcp"); ("tag", None)].
Proof. reflexivity. Qed.


(** The unit tests of the repository. *)

Example test_get_protocol_number_valid :
  get_protocol_number sample_getprotobyname (Some "TCP") = ([], inr "6").
Proof. reflexivity. Qed.

Example test_get_protocol_number_invalid :
  get_protocol_number sample_getprotobyname (Some "INVALID_PROTOCOL")
  = ([], inl (Exn ValueError "Invalid protocol name: INVALID_PROTOCOL.")).
Proof. reflexivity. Qed.

Example test_load_lookup_table :
  load_lookup_table sample_getprotobyname sample_open_csv "lookup_table.csv"
  = ([], inr [((Some "80", "6"), "http"); ((Some "443", "6"), "https")]).
Proof. reflexivity. Qed.

Example test_load_dstport_protocol_flow_logs :
  load_dstport_protocol_flow_logs sample_open_text "flow_logs.txt"
  = (["Skipping incomplete line: "], inr [("49153", "6"); ("25", "6")]).
Proof. reflexivity. Qed.

Example test_map_port_proto_tag :
  map_port_proto_tag [((Some "80", "6"), "http"); ((Some "443", "6"), "https")]
                     [("80", "6"); ("443", "6"); ("8080", "6")]
  = ([], inr [("http", 1); ("https", 1); ("untagged", 1)]).
Proof. reflexivity. Qed.

Example test_get_protocol_name :
  get_protocol_name sample_socket_vars 6 = "TCP"
  ∧ get_protocol_name sample_socket_vars 999 = "Unknown Protocol (999)".
Proof. split; reflexivity. Qed.

Example test_get_port_protocol_counts :
  get_port_protocol_counts sample_socket_vars [("80", "6"); ("443", "6"); ("80", "6")]
  = ([], inr [(("80", "TCP"), 2); (("443", "TCP"), 1)]).
Proof. reflexivity. Qed.

(** Two names for one number: the later constant names the number. *)
Example get_protocol_name_shared_number :
  get_protocol_name sample_socket_vars 0 = "HOPOPTS".
Proof. reflexivity. Qed.

(** The order of the records shows in the order of the keys only. *)
Example map_port_proto_tag_key_order :
  map_port_proto_tag [((Some "80", "6"), "http")] [("80", "6"); ("22", "6")]
  = ([], inr [("http", 1); ("untagged", 1)])
  ∧ map_port_proto_tag [((Some "80", "6"), "http")] [("22", "6"); ("80", "6")]
    = ([], inr [("untagged", 1); ("http", 1)]).
Proof. split; reflexivity. Qed.

(** A file that is missing, and a file that cannot be read to its end. *)
Example load_flow_logs_missing_file :
  load_dstport_protocol_flow_logs sample_open_text "missing.txt"
  = ([], inl (Exn IOError
       "Failed to read the flow log file: [Errno 2] No such file or directory: 'missing.txt'")).
Proof. reflexivity. Qed.

Example load_flow_logs_damaged_file :
  load_dstport_protocol_flow_logs sample_open_text "damaged.txt"
  = ([], inl (Exn IOError
       "Failed to read the flow log file: 'utf-8' codec can't decode byte 0xff in position 0: invalid start byte")).
Proof. reflexivity. Qed.

(* ================================================================= *)
(** ** The theorems at the sample host and files *)

Lemma sample_names_TCP : names_number sample_socket_vars "TCP" 6.
Proof.
  unfold names_number, sample_socket_vars.
  repeat first [apply list_elem_of_here | apply list_elem_of_further].
Qed.

Lemma sample_one_name_TCP Q : names_number sample_socket_vars Q 6 → Q = "TCP".
Proof.
  unfold names_number, sample_socket_vars. intros HQ.
  repeat (apply elem_of_cons in HQ as [HQ|HQ]; [try discriminate HQ|]).
  - injection HQ as HQ. exact HQ.
  - by apply elem_of_nil in HQ.
Qed.

Lemma sample_well_known_TCP : well_known sample_socket_vars sample_getprotobyname 6 "TCP".
Proof. split_and!; [apply sample_names_TCP | apply sample_one_name_TCP | reflexivity]. Qed.

Lemma sample_unrecognized_999 : unrecognized sample_socket_vars 999.
Proof.
  unfold unrecognized, names_number, sample_socket_vars. intros Q HQ.
  repeat (apply elem_of_cons in HQ as [HQ|HQ]; [discriminate HQ|]).
  by apply elem_of_nil in HQ.
Qed.

Lemma load_flow_logs_fields_witness :
  sample_open_text "flow_logs.txt" = Reads [flow_line_1; blank_line; flow_line_2] None
  ∧ load_dstport_protocol_flow_logs sample_open_text "flow_logs.txt"
    = (["Skipping incomplete line: "], inr [("49153", "6"); ("25", "6")]).
Proof.
  split; [reflexivity|].
  exact (proj1 (load_flow_logs_fields sample_open_text "flow_logs.txt"
                  [flow_line_1; blank_line; flow_line_2] eq_refl)).
Defined.

Lemma protocol_name_number_round_trip_witness :
  well_known sample_socket_vars sample_getprotobyname 6 "TCP"
  ∧ unrecognized sample_socket_vars 999
  ∧ get_protocol_name sample_socket_vars 6 = "TCP"
  ∧ get_protocol_number sample_getprotobyname (Some "TCP") = ([], inr "6")
  ∧ get_protocol_name sample_socket_vars 999 = "Unknown Protocol (999)".
Proof.
  destruct (protocol_name_number_round_trip sample_socket_vars sample_getprotobyname)
    as [Hknown Hunknown].
  destruct (Hknown 6 "TCP" sample_well_known_TCP) as [Hname Hnumber].
  split_and!;
    [apply sample_well_known_TCP | apply sample_unrecognized_999
    | exact Hname | exact Hnumber | exact (Hunknown 999 sample_unrecognized_999)].
Defined.

Lemma get_protocol_number_invalid_witness :
  sample_getprotobyname "INVALID_PROTOCOL" = None
  ∧ get_protocol_number sample_getprotobyname (Some "INVALID_PROTOCOL")
    = ([], inl (Exn ValueError "Invalid protocol name: INVALID_PROTOCOL.")).
Proof.
  split; [reflexivity|].
  exact (get_protocol_number_invalid sample_getprotobyname "INVALID_PROTOCOL" eq_refl).
Defined.

Lemma load_lookup_table_skips_invalid_witness :
  load_lookup_table sample_getprotobyname sample_open_csv "invalid_protocol.csv"
  = (["Skipping invalid entry in lookup table: Invalid protocol name: smtp."],
     inr [((Some "80", "6"), "http"); ((Some "443", "6"), "https")]).
Proof.
  destruct (load_lookup_table_skips_invalid sample_getprotobyname sample_open_csv
              "invalid_protocol.csv"
              [ [("dstport", Some "80"); ("protocol", Some "tcp"); ("tag", Some "HTTP")];
                [("dstport", Some "25"); ("protocol", Some "smtp"); ("tag", Some "Mail")];
                [("dstport", Some "443"); ("protocol", Some "tcp"); ("tag", Some "https")] ]
              eq_refl)
    as (lookup & Hload & -> & _).
  - repeat econstructor.
  - exact Hload.
Defined.

Lemma load_lookup_table_last_write_wins_witness :
  ∃ out lookup,
    load_lookup_table sample_getprotobyname sample_open_csv "duplicate_key.csv"
    = (out, inr lookup)
    ∧ dict_get lookup (Some "80", "6") = Some "web".
Proof.
  apply (load_lookup_table_last_write_wins sample_getprotobyname sample_open_csv
           "duplicate_key.csv"
           [ [("dstport", Some "80"); ("protocol", Some "tcp"); ("tag", Some "HTTP")];
             [("dstport", Some "53"); ("protocol", Some "udp"); ("tag", Some "dns")] ]
           []
           [("dstport", Some "80"); ("protocol", Some "TCP"); ("tag", Some "Web")]
           "80" "TCP" "Web" 6).
  - reflexivity.
  - repeat econstructor.
  - reflexivity.
  - reflexivity.
  - reflexivity.
  - reflexivity.
  - apply not_elem_of_nil.
Defined.


Lemma map_port_proto_tag_permutation_witness :
  ∃ counts1 counts2,
    map_port_proto_tag [((Some "80", "6"), "http")] [("80", "6"); ("22", "6")]
    = ([], inr counts1)
    ∧ map_port_proto_tag [((Some "80", "6"), "http")] [("22", "6"); ("80", "6")]
      = ([], inr counts2)
    ∧ ∀ tag, dict_get counts1 tag = dict_get counts2 tag.
Proof.
  apply map_port_proto_tag_permutation. apply perm_swap.
Defined.


(* ================================================================= *)
(** ** The further theorems at the sample host and files *)


Lemma load_lookup_table_resolved_entries_witness :
  load_lookup_table sample_getprotobyname sample_open_csv "duplicate_key.csv"
  = ([], inr [((Some "80", "6"), "web"); ((Some "53", "17"), "dns")])
  ∧ NoDup (dict_keys [((Some "80", "6"), "web"); ((Some "53", "17"), "dns")])
  ∧ ∀ key tag, (key, tag) ∈ [((Some "80", "6"), "web"); ((Some "53", "17"), "dns")] →
      (∃ protocol number,
         sample_getprotobyname protocol = Some number ∧ key.2 = PyStr.str number)
      ∧ PyStr.lower tag = tag.
Proof.
  split; [reflexivity|].
  exact (load_lookup_table_resolved_entries sample_getprotobyname sample_open_csv
           "duplicate_key.csv" []
           [((Some "80", "6"), "web"); ((Some "53", "17"), "dns")] eq_refl).
Defined.

Lemma noncanonical_protocol_untagged_witness :
  ¬ canonical_numeral "06"
  ∧ map_port_proto_tag [((Some "80", "6"), "http"); ((Some "443", "6"), "https")]
                       [("80", "06")]
    = ([], inr [("untagged", 1)]).
Proof.
  assert (¬ canonical_numeral "06") as Hnot by (by intros [=]).
  split; [exact Hnot|].
  exact (noncanonical_protocol_untagged sample_getprotobyname sample_open_csv
           "lookup_table.csv" []
           [((Some "80", "6"), "http"); ((Some "443", "6"), "https")]
           "80" "06" eq_refl Hnot).
Defined.

Lemma headless_no_dstport : "dstport" ∉ ["80"; "tcp"; "http"].
Proof.
  intros H. repeat (apply elem_of_cons in H as [H|H]; [discriminate H|]).
  by apply elem_of_nil in H.
Qed.

Lemma load_lookup_table_without_dstport_column_witness :
  load_lookup_table sample_getprotobyname headless_open_csv "headless.csv"
  = ([], inl (Exn IOError "Failed to read the lookup table file: 'dstport'")).
Proof.
  apply (load_lookup_table_without_dstport_column sample_getprotobyname
           headless_open_csv "headless.csv" ["80"; "tcp"; "http"]
           [[]; ["443"; "tcp"; "https"]] None).
  - reflexivity.
  - apply headless_no_dstport.
  - apply Exists_cons_tl, Exists_cons_hd. discriminate.
Defined.

Lemma load_flow_logs_accounts_for_lines_witness :
  ∃ out dstport_proto,
    load_dstport_protocol_flow_logs sample_open_text "flow_logs.txt"
    = (out, inr dstport_proto)
    ∧ (length dstport_proto + length out = 3)%nat.
Proof.
  apply (load_flow_logs_accounts_for_lines sample_open_text "flow_logs.txt"
           [flow_line_1; blank_line; flow_line_2]).
  reflexivity.
Defined.

Lemma load_flow_logs_raises_IOError_witness :
  ∃ cause,
    (sample_open_text "damaged.txt" = OpenFails cause
     ∨ ∃ lines, sample_open_text "damaged.txt" = Reads lines (Some cause))
    ∧ Exn IOError
        "Failed to read the flow log file: 'utf-8' codec can't decode byte 0xff in position 0: invalid start byte"
      = Exn IOError ("Failed to read the flow log file: " +:+ exn_msg cause).
Proof.
  apply (load_flow_logs_raises_IOError sample_open_text "damaged.txt" []).
  reflexivity.
Defined.

Lemma load_flow_logs_fields_no_space_witness :
  ("49153" ≠ EmptyString ∧ no_space "49153" = true)
  ∧ ("6" ≠ EmptyString ∧ no_space "6" = true).
Proof.
  apply (load_flow_logs_fields_no_space sample_open_text "flow_logs.txt"
           ["Skipping incomplete line: "] [("49153", "6"); ("25", "6")] eq_refl).
  apply list_elem_of_here.
Defined.

Lemma sample_no_name_0_after Q :
  ("IPPROTO_" +:+ Q, 0)
  ∉ [("IPPROTO_ICMP", 1); ("IPPROTO_TCP", 6); ("IPPROTO_UDP", 17); ("SOL_SOCKET", 1)].
Proof.
  intros H. repeat (apply elem_of_cons in H as [H|H]; [discriminate H|]).
  by apply elem_of_nil in H.
Qed.

Lemma get_protocol_name_last_constant_witness :
  get_protocol_name sample_socket_vars 0 = "HOPOPTS".
Proof.
  exact (get_protocol_name_last_constant
           [("AF_INET", 2); ("SOCK_STREAM", 1); ("IPPROTO_IP", 0)]
           [("IPPROTO_ICMP", 1); ("IPPROTO_TCP", 6); ("IPPROTO_UDP", 17); ("SOL_SOCKET", 1)]
           0 "HOPOPTS" sample_no_name_0_after).
Defined.

Lemma resolved_number_counted_under_name_witness :
  ∃ number,
    get_protocol_number sample_getprotobyname (Some "TCP") = ([], inr number)
    ∧ get_port_protocol_counts sample_socket_vars [("80", number)]
      = ([], inr [(("80", "TCP"), 1)]).
Proof.
  apply (resolved_number_counted_under_name sample_socket_vars sample_getprotobyname
           6 "TCP" "80").
  apply sample_well_known_TCP.
Defined.

Lemma write_output_file_rows_witness :
  write_output_file sample_open_out "output.csv"
                    [("http", 2); ("untagged", 1)] [(("80", "TCP"), 2); (("22", "TCP"), 1)]
  = (Some [["Tag"; "Count"]; ["http"; "2"]; ["untagged"; "1"]; [];
           ["Port"; "Protocol"; "Count"]; ["80"; "TCP"; "2"]; ["22"; "TCP"; "1"]],
     (["Output written to file output.csv"], inr tt))
  ∧ length (output_rows [("http", 2); ("untagged", 1)]
                        [(("80", "TCP"), 2); (("22", "TCP"), 1)]) = 7%nat.
Proof.
  apply (write_output_file_rows sample_open_out "output.csv" None
           [("http", 2); ("untagged", 1)] [(("80", "TCP"), 2); (("22", "TCP"), 1)]).
  - reflexivity.
  - exact I.
Defined.



Lemma main_value_error_writes_nothing_witness :
  ∃ msg,
    main sample_socket_vars sample_getprotobyname sample_open_csv sample_open_text
         sample_open_out sample_args_protocol_name
    = (None, (([] ++ []) ++ ["Value error: " +:+ msg], inr tt)).
Proof.
  apply (main_value_error_writes_nothing sample_socket_vars sample_getprotobyname
           sample_open_csv sample_open_text sample_open_out sample_args_protocol_name
           [] []
           [((Some "80", "6"), "http"); ((Some "443", "6"), "https")]
           [("49153", "tcp")]).
  - reflexivity.
  - reflexivity.
  - apply Exists_cons_hd. reflexivity.
Defined.

Lemma main_stops_at_lookup_table_witness :
  main sample_socket_vars sample_getprotobyname sample_open_csv sample_open_text
       sample_open_out sample_args_missing_lookup
  = (None,
     ([] ++ ["I/O error: Failed to read the lookup table file: [Errno 2] No such file or directory: 'missing.csv'"],
      inr tt)).
Proof.
  exact (main_stops_at_lookup_table sample_socket_vars sample_getprotobyname
           sample_open_csv sample_open_text sample_open_out sample_args_missing_lookup
           []
           (Exn IOError
              "Failed to read the lookup table file: [Errno 2] No such file or directory: 'missing.csv'")
           eq_refl).
Defined.

(* ================================================================= *)
(** ** The main function on the sample files *)

Example main_unit_test_files :
  main sample_socket_vars sample_getprotobyname sample_open_csv sample_open_text
       sample_open_out
       {| lookup_file := "lookup_table.csv"; flow_log_file := "flow_logs.txt";
          output := "output.csv" |}
  = (Some [["Tag"; "Count"]; ["untagged"; "2"]; [];
           ["Port"; "Protocol"; "Count"]; ["49153"; "TCP"; "1"]; ["25"; "TCP"; "1"]],
     (["Skipping incomplete line: "; "Output written to file output.csv"], inr tt)).
Proof. reflexivity. Qed.

Example main_missing_lookup_file :
  main sample_socket_vars sample_getprotobyname sample_open_csv sample_open_text
       sample_open_out
       {| lookup_file := "missing.csv"; flow_log_file := "flow_logs.txt";
          output := "output.csv" |}
  = (None,
     (["I/O error: Failed to read the lookup table file: [Errno 2] No such file or directory: 'missing.csv'"],
      inr tt)).
Proof. reflexivity. Qed.

Example main_protocol_name_in_flow_log :
  main sample_socket_vars sample_getprotobyname sample_open_csv sample_open_text
       sample_open_out
       {| lookup_file := "lookup_table.csv"; flow_log_file := "protocol_name.txt";
          output := "output.csv" |}
  = (None, (["Value error: invalid literal for int() with base 10: 'tcp'"], inr tt)).
Proof. reflexivity. Qed.

Example main_full_disk :
  main sample_socket_vars sample_getprotobyname sample_open_csv sample_open_text
       sample_open_out
       {| lookup_file := "lookup_table.csv"; flow_log_file := "flow_logs.txt";
          output := "full_disk.csv" |}
  = (Some [["Tag"; "Count"]; ["untagged"; "2"]; []; ["Port"; "Protocol"; "Count"]],
     (["Skipping incomplete line: ";
       "I/O error: Failed to write to output file: [Errno 28] No space left on device"],
      inr tt)).
Proof. reflexivity. Qed.
